(** * Vehicle dashboard simulation: a shallow embedding of
    [src/vehicle_dashboard.py] (and of [src/basic.py], which is the same
    program without the logging sink).

    Numbers.  [Speed_Km_hr] and [RPM] only ever hold Python ints
    (0, the literal 120, [random.randint] results and [max]/[min] of ints),
    so they are [Z].  [Battery_Level_Pct] is a Python float; it is modelled
    by an exact rational [Q], i.e. the float operations [-], [/], [max] and
    [round(_, 2)] are taken on exact values (rounding errors of the binary
    representation are abstracted away; [round] is modelled as CPython does
    it on the exact value: round-half-even to two decimals).  Thresholds
    come from [float()] (or are the int defaults) and are [pynum], which
    keeps the special float values [inf], [-inf] and [nan].

    Effects.  The program runs in an exception + state monad over a world
    holding: the configuration file as [configparser] sees it, the stream of
    [random.randint] results, the stream of wall-clock readings used by
    [logging] time stamps, the two dicts the program allocates
    ([vehicle_data], mutated in place, and [thresholds]), and the output
    (console prints and log records, oldest first). *)

From Stdlib Require Import ZArith QArith Qround Qminmax Qabs String Ascii List Bool Lia Lqa.
Import ListNotations.
Open Scope Z_scope.

(** ** Python values *)

(** A Python float as [float()] may produce it (finite values exact). *)
Inductive pynum : Type :=
| PyFin (q : Q)
| PyInf
| PyNegInf
| PyNaN.

(** [x > t] for a finite number [x] and a number [t] (IEEE comparison:
    anything compared with [nan] is false). *)
Definition py_gt (x : Q) (t : pynum) : bool :=
  match t with
  | PyFin q => negb (Qle_bool x q)
  | PyInf => false
  | PyNegInf => true
  | PyNaN => false
  end.

(** [x < t]. *)
Definition py_lt (x : Q) (t : pynum) : bool :=
  match t with
  | PyFin q => negb (Qle_bool q x)
  | PyInf => true
  | PyNegInf => false
  | PyNaN => false
  end.

(** Python's [max(a, b)] on numbers: keeps [a] unless [b > a]. *)
Definition py_maxQ (a b : Q) : Q := if Qle_bool b a then a else b.

(** Python's [round(x, 2)]: round-half-even of [100 * x], divided by 100. *)
Definition round_half_even (y : Q) : Z :=
  let f := Qfloor y in
  let r := (y - inject_Z f)%Q in
  if negb (Qle_bool (1 # 2) r) then f
  else if negb (Qle_bool r (1 # 2)) then f + 1
  else if Z.even f then f else f + 1.

Definition round2 (x : Q) : Q := round_half_even (x * 100)%Q # 100.

(** ** Data model: the two dicts *)

(** [vehicle_data = {"Speed_Km_hr": .., "RPM": .., "Battery_Level_Pct": ..}] *)
Record telemetry : Type := mkTelemetry {
  speed_kmh : Z;
  rpm : Z;
  battery_pct : Q
}.

(** [thresholds = {"Speed_Km_hr": .., "RPM": .., "Battery_Level_Pct": ..}] *)
Record thresholds : Type := mkThresholds {
  th_speed_kmh : pynum;
  th_rpm : pynum;
  th_battery_pct : pynum
}.

(** ** Configuration file, as [configparser] presents it *)

(** The [configparser.Error] subclasses the program can meet. *)
Inductive cp_error : Type :=
| NoSectionError (section : string)
| NoOptionError (option section : string)
| InterpolationError (option section : string)
| MissingSectionHeaderError
| ParsingError
| DuplicateSectionError (section : string)
| DuplicateOptionError (option section : string).

(** Python exceptions: [configparser.Error] or [ValueError]
    (what [float()] raises on a string it does not accept). *)
Inductive exc : Type :=
| ConfigParserError (e : cp_error)
| ValueError (arg : string).

(** Result of [config.get(section, option)] (section and option lookup,
    the [DEFAULT] section, [optionxform] and interpolation are the
    library's; the model takes its outcome). *)
Inductive get_result : Type :=
| GetValue (s : string)
| GetError (e : cp_error).

(** [config.ini] on disk: absent ([os.path.exists] is false), present but
    rejected by [config.read] (which raises), or read successfully. *)
Inductive config_file : Type :=
| CfgAbsent
| CfgReadError (e : cp_error)
| CfgParsed (get : string -> string -> get_result).

(** ** Alerts and output *)

Inductive alert : Type :=
| AlertHighSpeed (current : Z) (threshold : pynum)
| AlertHighRpm (current : Z) (threshold : pynum)
| AlertLowBattery (current : Q) (threshold : pynum).

(** What the program prints (each constructor is one [print] block). *)
Inductive message : Type :=
| MsgInitialized
| MsgConfigNotFound (file : string)
| MsgUsingDefaults
| MsgReadError (e : cp_error)
| MsgStarting
| MsgThresholds (t : thresholds)
| MsgOverride (speed : Z)
| MsgCycle (cycle target : Z)
| MsgDashboard (d : telemetry)
| MsgAlertsBegin
| MsgAlert (a : alert)
| MsgAlertsEnd
| MsgComplete.

Inductive log_level : Type := INFO | WARNING.

(** What [logging] writes to [dashboard.log]. *)
Inductive log_record : Type :=
| LogData (d : telemetry)
| LogAlert (a : alert).

Inductive event : Type :=
| Print (m : message)
| Log (lvl : log_level) (time : Z) (r : log_record)
| Sleep (ms : Z).

(** ** The world and the monad *)

Record world : Type := mkWorld {
  w_config : config_file;
  w_rand : nat -> Z;     (** the next [random.randint] results, in order *)
  w_clock : nat -> Z;    (** the next wall-clock readings, in order *)
  w_data : telemetry;    (** the [vehicle_data] dict *)
  w_thr : thresholds;    (** the [thresholds] dict *)
  w_out : list event
}.

Inductive outcome (A : Type) : Type :=
| Ret (a : A)
| Raise (e : exc).
Arguments Ret {A} a.
Arguments Raise {A} e.

Definition M (A : Type) : Type := world -> outcome A * world.

Definition ret {A} (a : A) : M A := fun w => (Ret a, w).

Definition raise {A} (e : exc) : M A := fun w => (Raise e, w).

Definition bind {A B} (m : M A) (k : A -> M B) : M B := fun w =>
  match m w with
  | (Ret a, w') => k a w'
  | (Raise e, w') => (Raise e, w')
  end.

Notation "x <- m ;; k" := (bind m (fun x => k))
  (at level 61, m at next level, right associativity).
Notation "m ;; k" := (bind m (fun _ => k))
  (at level 61, right associativity).

(** [try: m except configparser.Error as e: h e] *)
Definition try_except_cp {A} (m : M A) (h : cp_error -> M A) : M A := fun w =>
  match m w with
  | (Raise (ConfigParserError e), w') => h e w'
  | r => r
  end.

(** Primitive effects. *)
Definition emit (e : event) : M unit := fun w =>
  (Ret tt, mkWorld (w_config w) (w_rand w) (w_clock w) (w_data w) (w_thr w)
                   (w_out w ++ [e])).

Definition print (m : message) : M unit := emit (Print m).

(** [random.randint(a, b)]: the next value of the random source. *)
Definition randint (a b : Z) : M Z := fun w =>
  (Ret (w_rand w O),
   mkWorld (w_config w) (fun i => w_rand w (S i)) (w_clock w) (w_data w)
           (w_thr w) (w_out w)).

(** A wall-clock reading (the [asctime] of a log record). *)
Definition now : M Z := fun w =>
  (Ret (w_clock w O),
   mkWorld (w_config w) (w_rand w) (fun i => w_clock w (S i)) (w_data w)
           (w_thr w) (w_out w)).

Definition read_config : M config_file := fun w => (Ret (w_config w), w).

Definition read_data : M telemetry := fun w => (Ret (w_data w), w).

Definition write_data (d : telemetry) : M unit := fun w =>
  (Ret tt, mkWorld (w_config w) (w_rand w) (w_clock w) d (w_thr w) (w_out w)).

Definition read_thr : M thresholds := fun w => (Ret (w_thr w), w).

Definition write_thr (t : thresholds) : M unit := fun w =>
  (Ret tt, mkWorld (w_config w) (w_rand w) (w_clock w) (w_data w) t (w_out w)).

(** ** [float(s)] on a string (as [configparser.getfloat] calls it)

    Python's grammar: optional surrounding white space, an optional sign,
    then [inf], [infinity] or [nan] in any case, or a decimal literal
    [digitpart ["." [digitpart]] | "." digitpart] with an optional exponent
    [("e" | "E") [sign] digitpart]; a [digitpart] may separate digits by
    single underscores.  Anything else raises [ValueError].  Strings are
    ASCII text. *)

Definition is_digit (c : ascii) : bool :=
  let n := nat_of_ascii c in (48 <=? n)%nat && (n <=? 57)%nat.

Definition digit_val (c : ascii) : Z := Z.of_nat (nat_of_ascii c - 48).

Definition is_space (c : ascii) : bool :=
  let n := nat_of_ascii c in
  ((9 <=? n)%nat && (n <=? 13)%nat) || ((28 <=? n)%nat && (n <=? 32)%nat).

Definition to_lower (c : ascii) : ascii :=
  let n := nat_of_ascii c in
  if (65 <=? n)%nat && (n <=? 90)%nat then ascii_of_nat (n + 32) else c.

Fixpoint drop_space (l : list ascii) : list ascii :=
  match l with
  | c :: l' => if is_space c then drop_space l' else l
  | [] => []
  end.

Definition strip (l : list ascii) : list ascii :=
  rev (drop_space (rev (drop_space l))).

(** The digits after the first one of a [digitpart]: accumulated value,
    number of digits, rest of the input. *)
Fixpoint digits_rest (acc : Z) (n : nat) (l : list ascii) : Z * nat * list ascii :=
  match l with
  | c :: l' =>
      if is_digit c then digits_rest (acc * 10 + digit_val c) (S n) l'
      else if Ascii.eqb c "_"%char then
        match l' with
        | d :: l'' =>
            if is_digit d then digits_rest (acc * 10 + digit_val d) (S n) l''
            else (acc, n, l)
        | [] => (acc, n, l)
        end
      else (acc, n, l)
  | [] => (acc, n, l)
  end.

Definition digitpart (l : list ascii) : option (Z * nat * list ascii) :=
  match l with
  | c :: l' => if is_digit c then Some (digits_rest (digit_val c) 1 l') else None
  | [] => None
  end.

Definition take_sign (l : list ascii) : Z * list ascii :=
  match l with
  | c :: l' =>
      if Ascii.eqb c "+"%char then (1, l')
      else if Ascii.eqb c "-"%char then (-1, l')
      else (1, l)
  | [] => (1, l)
  end.

(** The mantissa [m / 10^k] and the rest of the input. *)
Definition parse_mantissa (l : list ascii) : option (Z * nat * list ascii) :=
  match digitpart l with
  | Some (v, _, r) =>
      match r with
      | c :: r' =>
          if Ascii.eqb c "."%char then
            match digitpart r' with
            | Some (f, k, r'') => Some (v * 10 ^ Z.of_nat k + f, k, r'')
            | None => Some (v, O, r')
            end
          else Some (v, O, r)
      | [] => Some (v, O, [])
      end
  | None =>
      match l with
      | c :: r' =>
          if Ascii.eqb c "."%char then
            match digitpart r' with
            | Some (f, k, r'') => Some (f, k, r'')
            | None => None
            end
          else None
      | [] => None
      end
  end.

(** The exponent, which must end the input. *)
Definition parse_exponent (l : list ascii) : option Z :=
  match l with
  | [] => Some 0
  | c :: r =>
      if Ascii.eqb c "e"%char || Ascii.eqb c "E"%char then
        let '(s, r') := take_sign r in
        match digitpart r' with
        | Some (v, _, []) => Some (s * v)
        | _ => None
        end
      else None
  end.

(** [m * 10^(e - k)] as an exact rational. *)
Definition scale (m : Z) (k : nat) (e : Z) : Q :=
  let d := e - Z.of_nat k in
  if 0 <=? d then inject_Z (m * 10 ^ d) else m # Z.to_pos (10 ^ (- d)).

(** The double a decimal value becomes, at the ends of the range: at or
    above the midpoint [2^1024 - 2^970] between the largest double and
    [2^1024] it rounds to [inf] (the tie goes to the even [2^1024]), at or
    below half the smallest subnormal, [2^-1075], to [0.0]; values in
    between are kept exact (rounding to the nearest double is
    abstracted). *)
Definition to_double (q : Q) : pynum :=
  if Qle_bool (inject_Z (2 ^ 1024 - 2 ^ 970)) (Qabs q) then
    (if Qle_bool 0 q then PyInf else PyNegInf)
  else if Qle_bool (Qabs q) (1 # Z.to_pos (2 ^ 1075)) then PyFin 0
  else PyFin q.

(** [float(s)]: [None] is [ValueError]. *)
Definition py_float (s : string) : option pynum :=
  let '(sg, body) := take_sign (strip (list_ascii_of_string s)) in
  let low := string_of_list_ascii (map to_lower body) in
  if String.eqb low "inf" || String.eqb low "infinity" then
    Some (if sg <? 0 then PyNegInf else PyInf)
  else if String.eqb low "nan" then Some PyNaN
  else
    match parse_mantissa body with
    | Some (m, k, r) =>
        match parse_exponent r with
        | Some e => Some (to_double (scale (sg * m) k e))
        | None => None
        end
    | None => None
    end.

(** ** [load_thresholds] *)

Definition CONFIG_FILE : string := "config.ini".

Definition default_thresholds : thresholds :=
  mkThresholds (PyFin 110) (PyFin 6000) (PyFin 10).

(** [config.getfloat(section, option)] = [float(config.get(section, option))]. *)
Definition getfloat (get : string -> string -> get_result)
    (section option : string) : M pynum :=
  match get section option with
  | GetError e => raise (ConfigParserError e)
  | GetValue s =>
      match py_float s with
      | Some x => ret x
      | None => raise (ValueError s)
      end
  end.

(** [load_thresholds()]: [config.read] runs outside the [try]; the [try]
    only catches [configparser.Error]. *)
Definition load_thresholds : M thresholds :=
  cfg <- read_config ;;
  match cfg with
  | CfgAbsent =>
      print (MsgConfigNotFound CONFIG_FILE) ;;
      print MsgUsingDefaults ;;
      ret default_thresholds
  | CfgReadError e => raise (ConfigParserError e)
  | CfgParsed get =>
      try_except_cp
        (s <- getfloat get "THRESHOLDS" "SPEED_KM_HR" ;;
         r <- getfloat get "THRESHOLDS" "RPM" ;;
         b <- getfloat get "THRESHOLDS" "BATTERY_LEVEL_PCT" ;;
         ret (mkThresholds s r b))
        (fun e =>
           print (MsgReadError e) ;;
           print MsgUsingDefaults ;;
           ret default_thresholds)
  end.

(** ** [get_real_time_data(current_data)]: mutates [vehicle_data] in place
    and returns the same dict (the world's [w_data]). *)
Definition get_real_time_data : M unit :=
  speed_change <- randint (-15) 15 ;;
  d <- read_data ;;
  let new_speed := Z.max 0 (speed_kmh d + speed_change) in
  write_data (mkTelemetry new_speed (rpm d) (battery_pct d)) ;;
  noise <- randint (-400) 400 ;;
  let new_rpm := Z.max 800 (Z.min 6500 (new_speed * 30 + noise)) in
  d <- read_data ;;
  write_data (mkTelemetry (speed_kmh d) new_rpm (battery_pct d)) ;;
  d <- read_data ;;
  let drain_factor := ((1 # 100) + inject_Z (rpm d) / inject_Z 1500000)%Q in
  let new_battery := py_maxQ 0 (battery_pct d - drain_factor)%Q in
  write_data (mkTelemetry (speed_kmh d) (rpm d) (round2 new_battery)).

(** [display_dashboard(data)]: one printed block showing the three values
    (the bar graphs are functions of them). *)
Definition display_dashboard : M unit :=
  d <- read_data ;;
  print (MsgDashboard d).

(** [for alert in alerts: print(alert)] *)
Fixpoint print_alerts (alerts : list alert) : M unit :=
  match alerts with
  | [] => ret tt
  | a :: rest => print (MsgAlert a) ;; print_alerts rest
  end.

(** [check_alerts(data, thresholds)] *)
Definition check_alerts : M (list alert) :=
  d <- read_data ;;
  t <- read_thr ;;
  let alerts := [] in
  let alerts :=
    if py_gt (inject_Z (speed_kmh d)) (th_speed_kmh t)
    then alerts ++ [AlertHighSpeed (speed_kmh d) (th_speed_kmh t)] else alerts in
  let alerts :=
    if py_gt (inject_Z (rpm d)) (th_rpm t)
    then alerts ++ [AlertHighRpm (rpm d) (th_rpm t)] else alerts in
  let alerts :=
    if py_lt (battery_pct d) (th_battery_pct t)
    then alerts ++ [AlertLowBattery (battery_pct d) (th_battery_pct t)] else alerts in
  (match alerts with
   | [] => ret tt
   | _ :: _ => print MsgAlertsBegin ;; print_alerts alerts ;; print MsgAlertsEnd
   end) ;;
  ret alerts.

(** [logging.info(...)] / [logging.warning(...)]: a time-stamped record. *)
Definition log (lvl : log_level) (r : log_record) : M unit :=
  t <- now ;;
  emit (Log lvl t r).

Fixpoint log_alerts (alerts : list alert) : M unit :=
  match alerts with
  | [] => ret tt
  | a :: rest => log WARNING (LogAlert a) ;; log_alerts rest
  end.

(** [log_data(data, alerts)] (only in [vehicle_dashboard.py]) *)
Definition log_data (alerts : list alert) : M unit :=
  d <- read_data ;;
  log INFO (LogData d) ;;
  log_alerts alerts.

(** [time.sleep(0.5)] *)
Definition sleep_half : M unit := emit (Sleep 500).

(** [initialize_dashboard()]: allocates [vehicle_data]. *)
Definition initialize_dashboard : M unit :=
  print MsgInitialized ;;
  write_data (mkTelemetry 0 0 100).

(** The two source files. *)
Inductive program : Type :=
| BasicPy            (** [src/basic.py]: no logging *)
| VehicleDashboardPy. (** [src/vehicle_dashboard.py]: logs every cycle *)

(** One iteration of the [for] loop. *)
Definition cycle_body (p : program) (cycle target : Z) : M unit :=
  print (MsgCycle cycle target) ;;
  get_real_time_data ;;
  display_dashboard ;;
  alerts <- check_alerts ;;
  (match p with
   | BasicPy => ret tt
   | VehicleDashboardPy => log_data alerts
   end) ;;
  sleep_half.

(** [for cycle in range(cycle, cycle + k): ...] *)
Fixpoint cycles (p : program) (target cycle : Z) (k : nat) : M unit :=
  match k with
  | O => ret tt
  | S k' => cycle_body p cycle target ;; cycles p target (cycle + 1) k'
  end.

(** Everything before the loop: initialisation, the single threshold load
    and the speed override. *)
Definition setup : M unit :=
  initialize_dashboard ;;
  thr <- load_thresholds ;;
  write_thr thr ;;
  print MsgStarting ;;
  print (MsgThresholds thr) ;;
  d <- read_data ;;
  write_data (mkTelemetry 120 (rpm d) (battery_pct d)) ;;
  print (MsgOverride 120).

(** [run_monitoring_cycle(target_cycles)] *)
Definition run_monitoring_cycle (p : program) (target_cycles : Z) : M unit :=
  setup ;;
  cycles p target_cycles 1 (Z.to_nat target_cycles) ;;
  print MsgComplete.

(** ** Derived views used by the statements *)

(** The values [get_real_time_data] stores, as a function of the input
    dict and of its two [randint] results. *)
Definition next_telemetry (d : telemetry) (speed_change noise : Z) : telemetry :=
  let new_speed := Z.max 0 (speed_kmh d + speed_change) in
  let new_rpm := Z.max 800 (Z.min 6500 (new_speed * 30 + noise)) in
  let drain_factor := ((1 # 100) + inject_Z new_rpm / inject_Z 1500000)%Q in
  mkTelemetry new_speed new_rpm
    (round2 (py_maxQ 0 (battery_pct d - drain_factor)%Q)).

(** The simulation step as the specification words it (section 4.2). *)
Definition clamp (x lo hi : Z) : Z :=
  if x <? lo then lo else if hi <? x then hi else x.

Definition spec_step (d : telemetry) (delta noise : Z) : telemetry :=
  let speed' := Z.max 0 (speed_kmh d + delta) in
  let rpm' := clamp (speed' * 30 + noise) 800 6500 in
  let drain := ((1 # 100) + inject_Z rpm' / inject_Z 1500000)%Q in
  let battery' := round2 (Qmax 0 (battery_pct d - drain)) in
  mkTelemetry speed' rpm' battery'.

(** The states shown by [display_dashboard], in order: the state after
    each simulation step. *)
Fixpoint trajectory (out : list event) : list telemetry :=
  match out with
  | [] => []
  | Print (MsgDashboard d) :: rest => d :: trajectory rest
  | _ :: rest => trajectory rest
  end.

(** The cycle numbers announced by the loop's [CYCLE i/n] banner. *)
Fixpoint cycle_headers (out : list event) : list Z :=
  match out with
  | [] => []
  | Print (MsgCycle c _) :: rest => c :: cycle_headers rest
  | _ :: rest => cycle_headers rest
  end.

(** The kind of an alert. *)
Definition is_high_speed (a : alert) : bool :=
  match a with AlertHighSpeed _ _ => true | _ => false end.
Definition is_high_rpm (a : alert) : bool :=
  match a with AlertHighRpm _ _ => true | _ => false end.
Definition is_low_battery (a : alert) : bool :=
  match a with AlertLowBattery _ _ => true | _ => false end.

(** The alerts [check_alerts] builds for a dict [d] and thresholds [t]. *)
Definition alerts_for (d : telemetry) (t : thresholds) : list alert :=
  (if py_gt (inject_Z (speed_kmh d)) (th_speed_kmh t)
   then [AlertHighSpeed (speed_kmh d) (th_speed_kmh t)] else [])
  ++ (if py_gt (inject_Z (rpm d)) (th_rpm t)
      then [AlertHighRpm (rpm d) (th_rpm t)] else [])
  ++ (if py_lt (battery_pct d) (th_battery_pct t)
      then [AlertLowBattery (battery_pct d) (th_battery_pct t)] else []).

(** What [check_alerts] prints for a list of alerts. *)
Definition alert_output (alerts : list alert) : list event :=
  match alerts with
  | [] => []
  | _ :: _ =>
      Print MsgAlertsBegin :: map (fun a => Print (MsgAlert a)) alerts
      ++ [Print MsgAlertsEnd]
  end.

(** The process at start-up: [config.ini], the random source and the clock
    are given; the two dicts are not allocated yet (their placeholders are
    never read before being written). *)
Definition fresh_world (cfg : config_file) (rand clock : nat -> Z) : world :=
  mkWorld cfg rand clock (mkTelemetry 0 0 0) default_thresholds [].

(** A dict whose [Battery_Level_Pct] is negative, outside the data model's
    range [[0.0, 100.0]]. *)
Definition world_negative_battery : world :=
  mkWorld CfgAbsent (fun _ => 0) (fun _ => 0) (mkTelemetry 0 0 (-1))
          default_thresholds [].

(** The world as the first cycle starts when [config.ini] is absent: speed
    overridden to 120, every draw 5, clock at 0. *)
Definition world_cycle1 : world :=
  mkWorld CfgAbsent (fun _ => 5) (fun _ => 0) (mkTelemetry 120 0 100)
          default_thresholds
          [Print MsgInitialized; Print (MsgConfigNotFound CONFIG_FILE);
           Print MsgUsingDefaults; Print MsgStarting;
           Print (MsgThresholds default_thresholds); Print (MsgOverride 120)].

(** [config.get(section, option)] for an INI text without [DEFAULT]
    section and without [%] in its values, given as its sections in order
    with their [(option, value)] pairs (option names lower-cased by
    [optionxform], values stripped).  [NoOptionError] reports the
    lower-cased option name, as [configparser] does. *)
Fixpoint assoc {A} (k : string) (l : list (string * A)) : option A :=
  match l with
  | [] => None
  | (k', v) :: rest => if String.eqb k k' then Some v else assoc k rest
  end.

Definition ini_get (sections : list (string * list (string * string)))
    (section option : string) : get_result :=
  match assoc section sections with
  | None => GetError (NoSectionError section)
  | Some opts =>
      let option := string_of_list_ascii (map to_lower (list_ascii_of_string option)) in
      match assoc option opts with
      | None => GetError (NoOptionError option section)
      | Some v => GetValue v
      end
  end.

(** [config.ini] = ["[THRESHOLDS]\nSPEED_KM_HR = fast\nRPM = 6000\nBATTERY_LEVEL_PCT = 10\n"] *)
Definition config_non_numeric : config_file :=
  CfgParsed (ini_get [("THRESHOLDS",
                       [("speed_km_hr", "fast"); ("rpm", "6000");
                        ("battery_level_pct", "10")])]%string).

(** [config.ini] = ["[THRESHOLDS]\nSPEED_KM_HR = 90\nRPM = 5000.5\nBATTERY_LEVEL_PCT = 15\n"] *)
Definition config_numeric : config_file :=
  CfgParsed (ini_get [("THRESHOLDS",
                       [("speed_km_hr", "90"); ("rpm", "5000.5");
                        ("battery_level_pct", "15")])]%string).

(** ** Views of one cycle and of a whole run *)

(** The clock after [n] further readings. *)
Fixpoint clock_after (k : nat -> Z) (n : nat) : nat -> Z :=
  match n with
  | O => k
  | S n' => clock_after (fun i => k (S i)) n'
  end.

(** The WARNING records [log_data] writes for [alerts], one per alert,
    time-stamped by the clock [k]. *)
Fixpoint alert_logs (k : nat -> Z) (alerts : list alert) : list event :=
  match alerts with
  | [] => []
  | a :: rest => Log WARNING (k O) (LogAlert a) :: alert_logs (fun i => k (S i)) rest
  end.

(** The log records one cycle writes: none in [basic.py]; in
    [vehicle_dashboard.py] the INFO record of the state, then the alerts. *)
Definition cycle_logs (p : program) (k : nat -> Z) (d : telemetry)
    (alerts : list alert) : list event :=
  match p with
  | BasicPy => []
  | VehicleDashboardPy =>
      Log INFO (k O) (LogData d) :: alert_logs (fun i => k (S i)) alerts
  end.

(** The number of clock readings one cycle takes. *)
Definition cycle_clock_use (p : program) (alerts : list alert) : nat :=
  match p with
  | BasicPy => O
  | VehicleDashboardPy => S (length alerts)
  end.

(** The states [k] simulation steps produce from [d], drawing from [rand]
    (two draws per step). *)
Fixpoint states_after (d : telemetry) (rand : nat -> Z) (k : nat) : list telemetry :=
  match k with
  | O => []
  | S k' =>
      let d' := next_telemetry d (rand O) (rand 1%nat) in
      d' :: states_after d' (fun i => rand (S (S i))) k'
  end.

(** The alerts printed by [print(alert)], in order. *)
Fixpoint alerts_shown (out : list event) : list alert :=
  match out with
  | [] => []
  | Print (MsgAlert a) :: rest => a :: alerts_shown rest
  | _ :: rest => alerts_shown rest
  end.

(** The log records written, in order, with their level. *)
Fixpoint logged (out : list event) : list (log_level * log_record) :=
  match out with
  | [] => []
  | Log lvl _ r :: rest => (lvl, r) :: logged rest
  | _ :: rest => logged rest
  end.

(** The output without its log records (console prints and sleeps). *)
Fixpoint strip_logs (out : list event) : list event :=
  match out with
  | [] => []
  | Log _ _ _ :: rest => strip_logs rest
  | e :: rest => e :: strip_logs rest
  end.

(** ** The bar graphs and icon of [display_dashboard]

    [int(x)] on a float truncates toward zero; ["s" * n] is the empty
    string for [n <= 0].  The number formatting of the block is left
    out. *)
Definition py_int (x : Q) : Z :=
  if Qle_bool 0 x then Qfloor x else - Qfloor (- x).

Definition str_repeat {A} (c : A) (n : Z) : list A := repeat c (Z.to_nat n).

(** ["█"] and ["░"] *)
Inductive glyph : Type := Full | Light.

(** ["🔋"] and ["🪫"] *)
Inductive battery_icon : Type := IconBattery | IconLowBattery.

Record dashboard_view : Type := mkView {
  view_rpm_bar : list glyph;
  view_icon : battery_icon;
  view_battery_bar : list glyph
}.

Definition render (d : telemetry) : dashboard_view :=
  let rpm_bar := str_repeat Full (py_int (inject_Z (rpm d) / 1000)) in
  let battery_level := py_int (battery_pct d / 10) in
  let icon := if py_gt (battery_pct d) (PyFin 20) then IconBattery else IconLowBattery in
  let battery_bar := str_repeat Full battery_level ++ str_repeat Light (10 - battery_level) in
  mkView rpm_bar icon battery_bar.

(** ** Relations used by the loop proofs *)

(** Two worlds that differ at most in their clock readings and in output
    that shows no state. *)
Definition agree (w1 w2 : world) : Prop :=
  w_config w1 = w_config w2 /\ w_rand w1 = w_rand w2 /\
  w_data w1 = w_data w2 /\ w_thr w1 = w_thr w2 /\
  trajectory (w_out w1) = trajectory (w_out w2).

(** A computation whose result and shown states do not depend on what
    [agree] leaves free. *)
Definition Resp {A} (m : M A) : Prop :=
  forall w1 w2, agree w1 w2 ->
    fst (m w1) = fst (m w2) /\ agree (snd (m w1)) (snd (m w2)).

(** [w'] is [w] with more output, announcing cycles [hs] and showing [n]
    states. *)
Definition adds (w w' : world) (hs : list Z) (n : nat) : Prop :=
  exists new, w_out w' = w_out w ++ new /\ cycle_headers new = hs
              /\ length (trajectory new) = n.

(** [m] returns normally and only adds such output. *)
Definition Adds {A} (m : M A) (hs : list Z) (n : nat) : Prop :=
  forall w, exists a w', m w = (Ret a, w') /\ adds w w' hs n.

(** * Properties *)

(** ** The [float()] model on sample strings *)

Example py_float_ex1 : py_float " 1_000.5e-1 " = Some (PyFin (10005 # 100)).
Proof. reflexivity. Qed.
Example py_float_ex2 : py_float "fast" = None.
Proof. reflexivity. Qed.
Example py_float_ex3 : py_float "-Infinity" = Some PyNegInf.
Proof. reflexivity. Qed.
Example py_float_range : (py_float "1e400", py_float "-1e400", py_float "1e-400")
                         = (Some PyInf, Some PyNegInf, Some (PyFin 0)).
Proof. vm_compute. reflexivity. Qed.

Example py_float_ex4 : (py_float "1_", py_float ".", py_float "1.", py_float ".5E+2")
  = (None, None, Some (PyFin 1), Some (PyFin 50)).
Proof. reflexivity. Qed.

(** ** Rounding *)

Lemma Qmake_100 (k : Z) : ((k # 100) == inject_Z k * (1 # 100))%Q.
Proof. unfold Qeq; simpl; lia. Qed.

Lemma round_half_even_compat (x y : Q) :
  (x == y)%Q -> round_half_even x = round_half_even y.
Proof.
  intros H. unfold round_half_even. rewrite (Qfloor_comp x y H).
  rewrite !H. reflexivity.
Qed.

Lemma round2_compat (x y : Q) : (x == y)%Q -> round2 x = round2 y.
Proof.
  intros H. unfold round2. f_equal. apply round_half_even_compat.
  rewrite H. reflexivity.
Qed.

Lemma Qle_bool_false (x y : Q) : Qle_bool x y = false -> (y < x)%Q.
Proof.
  intros H. apply Qnot_le_lt. intros H'. apply Qle_bool_iff in H'. congruence.
Qed.

Lemma round_half_even_le (y : Q) : (inject_Z (round_half_even y) <= y + (1 # 2))%Q.
Proof.
  unfold round_half_even.
  pose proof (Qfloor_le y) as Hf. pose proof (Qlt_floor y) as Hl.
  rewrite inject_Z_plus in Hl.
  set (f := Qfloor y) in *. clearbody f.
  change (inject_Z 1) with 1%Q in Hl.
  destruct (Qle_bool (1 # 2) (y - inject_Z f)) eqn:E1;
    [apply Qle_bool_iff in E1 | ]; cbn [negb].
  - destruct (Qle_bool (y - inject_Z f) (1 # 2)) eqn:E2;
      [apply Qle_bool_iff in E2 | apply Qle_bool_false in E2 ]; cbn [negb].
    + destruct (Z.even f); rewrite ?inject_Z_plus;
        change (inject_Z 1) with 1%Q; lra.
    + rewrite inject_Z_plus. change (inject_Z 1) with 1%Q. lra.
  - lra.
Qed.

Lemma round_half_even_nonneg (y : Q) : (0 <= y)%Q -> 0 <= round_half_even y.
Proof.
  intros H. unfold round_half_even.
  assert (0 <= Qfloor y).
  { change 0 with (Qfloor 0). apply Qfloor_resp_le. exact H. }
  destruct (Qle_bool _ _); simpl; [destruct (Qle_bool _ _); simpl;
    [destruct (Z.even _) | ] | ]; lia.
Qed.

Lemma round2_le (x : Q) : (round2 x <= x + (1 # 200))%Q.
Proof.
  unfold round2. rewrite Qmake_100.
  pose proof (round_half_even_le (x * 100)). lra.
Qed.

Lemma round2_nonneg (x : Q) : (0 <= x)%Q -> (0 <= round2 x)%Q.
Proof.
  intros H. unfold round2. rewrite Qmake_100.
  assert (0 <= round_half_even (x * 100)) by (apply round_half_even_nonneg; lra).
  assert (0 <= inject_Z (round_half_even (x * 100)))%Q
    by (change 0%Q with (inject_Z 0); rewrite <- Zle_Qle; exact H0).
  lra.
Qed.

(** ** The simulation step *)

Lemma get_real_time_data_eq (w : world) :
  get_real_time_data w =
  (Ret tt, mkWorld (w_config w) (fun i => w_rand w (S (S i))) (w_clock w)
             (next_telemetry (w_data w) (w_rand w O) (w_rand w 1%nat))
             (w_thr w) (w_out w)).
Proof. destruct w as [c r k [s rp b] t o]. reflexivity. Qed.

Lemma py_maxQ_Qmax (a b : Q) : (py_maxQ a b == Qmax a b)%Q.
Proof.
  unfold py_maxQ. destruct (Q.max_spec a b) as [[H1 H2] | [H1 H2]];
    rewrite H2; destruct (Qle_bool b a) eqn:E;
    [apply Qle_bool_iff in E; lra | reflexivity | reflexivity
    | apply Qle_bool_false in E; lra].
Qed.

Lemma max_min_clamp (x : Z) : Z.max 800 (Z.min 6500 x) = clamp x 800 6500.
Proof.
  unfold clamp. destruct (Z.ltb_spec x 800); [lia |].
  destruct (Z.ltb_spec 6500 x); lia.
Qed.

(** C1.  One call of [get_real_time_data] consumes two [randint] results,
    [delta] then [noise], and leaves in [vehicle_data] exactly
    [speed' = max(0, speed + delta)],
    [rpm' = clamp(speed' * 30 + noise, 800, 6500)],
    [battery' = round(max(0.0, battery - (0.01 + rpm' / 1500000)), 2)];
    nothing else in the world changes. *)
Theorem get_real_time_data_spec (w : world) :
  get_real_time_data w =
  (Ret tt, mkWorld (w_config w) (fun i => w_rand w (S (S i))) (w_clock w)
             (spec_step (w_data w) (w_rand w O) (w_rand w 1%nat))
             (w_thr w) (w_out w)).
Proof.
  rewrite get_real_time_data_eq.
  unfold next_telemetry, spec_step. rewrite max_min_clamp.
  rewrite (round2_compat (py_maxQ _ _) (Qmax _ _)) by apply py_maxQ_Qmax.
  reflexivity.
Qed.

(** C2.  Whatever the input dict (any [RPM], any speed) and whatever the
    random draws, the [RPM] stored by one step lies in [[800, 6500]]. *)
Theorem get_real_time_data_rpm_range (w : world) :
  800 <= rpm (w_data (snd (get_real_time_data w))) <= 6500.
Proof. rewrite get_real_time_data_eq. simpl. lia. Qed.

Lemma round2_zero : (round2 0 == 0)%Q.
Proof. reflexivity. Qed.

Lemma drain_factor_ge (r : Z) :
  800 <= r -> ((1 # 100) <= (1 # 100) + inject_Z r / inject_Z 1500000)%Q.
Proof.
  intros Hr.
  assert (0 <= inject_Z r / inject_Z 1500000)%Q.
  { unfold Qdiv. apply Qmult_le_0_compat.
    - change 0%Q with (inject_Z 0). rewrite <- Zle_Qle. lia.
    - discriminate. }
  lra.
Qed.

(** C3 (counterexample).  The claim "for every input state, the stored
    battery is at most the previous one and at least 0" fails at a state
    with battery [-1]: [max(0.0, -1 - drain)] is [0.0], above [-1]. *)
Lemma get_real_time_data_battery_counterexample :
  ~ (forall w : world,
       (battery_pct (w_data (snd (get_real_time_data w))) <= battery_pct (w_data w))%Q
       /\ (0 <= battery_pct (w_data (snd (get_real_time_data w))))%Q).
Proof.
  intros H. destruct (H world_negative_battery) as [H1 _].
  rewrite get_real_time_data_eq in H1. vm_compute in H1. apply H1. reflexivity.
Qed.

(** C3 (amended).  For every input state and all draws, the stored
    battery is at least 0; when the input battery is at least 0 (the data
    model's range), the stored battery is also at most the input battery,
    rounding to 2 decimals included; when the input battery is below 0,
    [max(0.0, battery - drain)] clamps it and the stored battery is 0.0,
    above the input. *)
Theorem get_real_time_data_battery (w : world) :
  (0 <= battery_pct (w_data (snd (get_real_time_data w))))%Q
  /\ ((0 <= battery_pct (w_data w))%Q ->
      (battery_pct (w_data (snd (get_real_time_data w))) <= battery_pct (w_data w))%Q)
  /\ ((battery_pct (w_data w) < 0)%Q ->
      (battery_pct (w_data (snd (get_real_time_data w))) == 0)%Q
      /\ (battery_pct (w_data w) < battery_pct (w_data (snd (get_real_time_data w))))%Q).
Proof.
  rewrite get_real_time_data_eq. cbn [snd w_data].
  unfold next_telemetry. cbn [battery_pct].
  set (r := Z.max 800 (Z.min 6500 _)).
  assert (Hr : 800 <= r) by (unfold r; lia).
  pose proof (drain_factor_ge r Hr) as Hd.
  set (d := ((1 # 100) + inject_Z r / inject_Z 1500000)%Q) in *.
  set (b := battery_pct (w_data w)) in *. clearbody d b.
  unfold py_maxQ. destruct (Qle_bool (b - d) 0) eqn:E.
  - apply Qle_bool_iff in E. rewrite round2_zero.
    split; [lra | split; [intros; lra | intros; split; [reflexivity | lra]]].
  - apply Qle_bool_false in E.
    pose proof (round2_le (b - d)).
    pose proof (round2_nonneg (b - d) (Qlt_le_weak _ _ E)).
    split; [lra | split; [intros; lra | intros; lra]].
Qed.

Lemma get_real_time_data_battery_witness :
  ((0 <= battery_pct (w_data world_cycle1))%Q
   /\ (battery_pct (w_data (snd (get_real_time_data world_cycle1)))
       <= battery_pct (w_data world_cycle1))%Q)
  /\ ((battery_pct (w_data world_negative_battery) < 0)%Q
      /\ (battery_pct (w_data (snd (get_real_time_data world_negative_battery))) == 0)%Q).
Proof.
  assert (H1 : (0 <= battery_pct (w_data world_cycle1))%Q)
    by (vm_compute; discriminate).
  assert (H2 : (battery_pct (w_data world_negative_battery) < 0)%Q)
    by (vm_compute; reflexivity).
  split; split; [exact H1 | | exact H2 |].
  - exact (proj1 (proj2 (get_real_time_data_battery world_cycle1)) H1).
  - exact (proj1 (proj2 (proj2 (get_real_time_data_battery world_negative_battery)) H2)).
Defined.

(** ** Threshold loading *)

Example load_thresholds_numeric :
  fst (load_thresholds (fresh_world config_numeric (fun _ => 0) (fun _ => 0)))
  = Ret (mkThresholds (PyFin 90) (PyFin (50005 # 10)) (PyFin 15)).
Proof. reflexivity. Qed.

(** A missing option is a [configparser.Error]: caught, defaults used. *)
Example load_thresholds_missing_option :
  load_thresholds
    (fresh_world (CfgParsed (ini_get [("THRESHOLDS", [("speed_km_hr", "90")])]%string))
                 (fun _ => 0) (fun _ => 0))
  = (Ret default_thresholds,
     mkWorld (CfgParsed (ini_get [("THRESHOLDS", [("speed_km_hr", "90")])]%string))
             (fun _ => 0) (fun _ => 0) (mkTelemetry 0 0 0) default_thresholds
             [Print (MsgReadError (NoOptionError "rpm" "THRESHOLDS"));
              Print MsgUsingDefaults]).
Proof. reflexivity. Qed.

(** C4 (code bug).  With a [config.ini] whose [SPEED_KM_HR] is ["fast"],
    [getfloat] raises [ValueError], which the [except configparser.Error]
    clause does not catch: [load_thresholds] raises to its caller instead of
    returning the defaults.  A file [config.read] rejects (e.g. no section
    header) raises as well, [config.read] being outside the [try]. *)
Theorem load_thresholds_non_numeric_raises :
  fst (load_thresholds (fresh_world config_non_numeric (fun _ => 0) (fun _ => 0)))
    = Raise (ValueError "fast")
  /\ fst (load_thresholds
            (fresh_world (CfgReadError MissingSectionHeaderError) (fun _ => 0) (fun _ => 0)))
    = Raise (ConfigParserError MissingSectionHeaderError).
Proof. split; reflexivity. Qed.

(** C5.  When [config.ini] is absent, [load_thresholds] returns exactly
    [{Speed_Km_hr: 110, RPM: 6000, Battery_Level_Pct: 10}] and prints the
    "not found" error and the "Using default hardcoded thresholds" warning;
    nothing else changes. *)
Theorem load_thresholds_absent (w : world) :
  w_config w = CfgAbsent ->
  load_thresholds w =
  (Ret (mkThresholds (PyFin 110) (PyFin 6000) (PyFin 10)),
   mkWorld (w_config w) (w_rand w) (w_clock w) (w_data w) (w_thr w)
           (w_out w ++ [Print (MsgConfigNotFound "config.ini");
                        Print MsgUsingDefaults])).
Proof.
  destruct w as [c r k d t o]. cbn [w_config]. intros ->.
  cbv [load_thresholds bind read_config print emit ret]. cbn.
  rewrite <- app_assoc. reflexivity.
Qed.

Lemma load_thresholds_absent_witness :
  w_config (fresh_world CfgAbsent (fun _ => 0) (fun _ => 0)) = CfgAbsent
  /\ load_thresholds (fresh_world CfgAbsent (fun _ => 0) (fun _ => 0)) =
     (Ret (mkThresholds (PyFin 110) (PyFin 6000) (PyFin 10)),
      mkWorld CfgAbsent (fun _ => 0) (fun _ => 0) (mkTelemetry 0 0 0)
              default_thresholds
              ([] ++ [Print (MsgConfigNotFound "config.ini");
                      Print MsgUsingDefaults])).
Proof.
  split; [reflexivity |].
  exact (load_thresholds_absent (fresh_world CfgAbsent (fun _ => 0) (fun _ => 0))
           eq_refl).
Defined.

(** ** Alert evaluation *)

Lemma print_alerts_eq (alerts : list alert) (w : world) :
  print_alerts alerts w =
  (Ret tt, mkWorld (w_config w) (w_rand w) (w_clock w) (w_data w) (w_thr w)
             (w_out w ++ map (fun a => Print (MsgAlert a)) alerts)).
Proof.
  revert w. induction alerts as [| a rest IH]; intros w.
  - destruct w; cbn. rewrite app_nil_r. reflexivity.
  - cbn [print_alerts]. unfold bind at 1. cbn. rewrite IH. cbn.
    rewrite <- app_assoc. reflexivity.
Qed.

Lemma check_alerts_eq (w : world) :
  check_alerts w =
  (Ret (alerts_for (w_data w) (w_thr w)),
   mkWorld (w_config w) (w_rand w) (w_clock w) (w_data w) (w_thr w)
           (w_out w ++ alert_output (alerts_for (w_data w) (w_thr w)))).
Proof.
  destruct w as [c r k d t o].
  unfold check_alerts, alerts_for. cbn [bind read_data read_thr w_data w_thr].
  destruct (py_gt (inject_Z (speed_kmh d)) (th_speed_kmh t));
  destruct (py_gt (inject_Z (rpm d)) (th_rpm t));
  destruct (py_lt (battery_pct d) (th_battery_pct t));
  cbn; try (rewrite app_nil_r; reflexivity);
  unfold bind, ret; cbn; rewrite <- !app_assoc; reflexivity.
Qed.

(** C6.  [check_alerts] returns a HighSpeed alert iff [speed > speed_max],
    a HighRpm alert iff [rpm > rpm_max] and a LowBattery alert iff
    [battery < battery_min] (Python comparisons), each decided on its own,
    and the list is in the order speed, rpm, battery. *)
Theorem check_alerts_spec (w : world) :
  let d := w_data w in
  let t := w_thr w in
  let l := (if py_gt (inject_Z (speed_kmh d)) (th_speed_kmh t)
            then [AlertHighSpeed (speed_kmh d) (th_speed_kmh t)] else [])
           ++ (if py_gt (inject_Z (rpm d)) (th_rpm t)
               then [AlertHighRpm (rpm d) (th_rpm t)] else [])
           ++ (if py_lt (battery_pct d) (th_battery_pct t)
               then [AlertLowBattery (battery_pct d) (th_battery_pct t)] else []) in
  fst (check_alerts w) = Ret l
  /\ existsb is_high_speed l = py_gt (inject_Z (speed_kmh d)) (th_speed_kmh t)
  /\ existsb is_high_rpm l = py_gt (inject_Z (rpm d)) (th_rpm t)
  /\ existsb is_low_battery l = py_lt (battery_pct d) (th_battery_pct t).
Proof.
  cbv zeta. rewrite check_alerts_eq. unfold alerts_for. cbn [fst].
  destruct (py_gt (inject_Z (speed_kmh (w_data w))) (th_speed_kmh (w_thr w)));
  destruct (py_gt (inject_Z (rpm (w_data w))) (th_rpm (w_thr w)));
  destruct (py_lt (battery_pct (w_data w)) (th_battery_pct (w_thr w)));
  repeat split.
Qed.

(** C9.  [check_alerts] leaves both dicts untouched: the telemetry values
    and the three thresholds are the same after the call. *)
Theorem check_alerts_read_only (w : world) :
  w_data (snd (check_alerts w)) = w_data w
  /\ w_thr (snd (check_alerts w)) = w_thr w.
Proof. rewrite check_alerts_eq. split; reflexivity. Qed.

(** C10.  The list returned by [check_alerts] has at most one alert of
    each kind, hence at most three alerts. *)
Theorem check_alerts_at_most_one_each (w : world) :
  match fst (check_alerts w) with
  | Ret l =>
      length (filter is_high_speed l) <= 1
      /\ length (filter is_high_rpm l) <= 1
      /\ length (filter is_low_battery l) <= 1
      /\ length l <= 3
  | Raise _ => False
  end%nat.
Proof.
  rewrite check_alerts_eq. cbn [fst]. unfold alerts_for.
  destruct (py_gt _ (th_speed_kmh _)); destruct (py_gt _ (th_rpm _));
  destruct (py_lt _ _); cbn; lia.
Qed.

Example check_alerts_high_speed_only :
  fst (check_alerts (mkWorld CfgAbsent (fun _ => 0) (fun _ => 0)
                       (mkTelemetry 120 3000 50) default_thresholds []))
  = Ret [AlertHighSpeed 120 (PyFin 110)].
Proof. reflexivity. Qed.

Example check_alerts_low_battery_only :
  fst (check_alerts (mkWorld CfgAbsent (fun _ => 0) (fun _ => 0)
                       (mkTelemetry 50 3000 5) default_thresholds []))
  = Ret [AlertLowBattery 5 (PyFin 10)].
Proof. reflexivity. Qed.

(** ** Determinism given the random source *)

Lemma trajectory_app (l1 l2 : list event) :
  trajectory (l1 ++ l2) = trajectory l1 ++ trajectory l2.
Proof.
  induction l1 as [| e l1 IH]; [reflexivity |].
  destruct e as [m | | ]; cbn; rewrite ?IH; [destruct m; cbn; rewrite ?IH | |];
    reflexivity.
Qed.

Create HintDb resp.

Lemma resp_ret {A} (a : A) : Resp (ret a).
Proof. intros w1 w2 H. split; [reflexivity | exact H]. Qed.

Lemma resp_raise {A} (e : exc) : Resp (A := A) (raise e).
Proof. intros w1 w2 H. split; [reflexivity | exact H]. Qed.

Lemma resp_bind {A B} (m : M A) (k : A -> M B) :
  Resp m -> (forall a, Resp (k a)) -> Resp (bind m k).
Proof.
  intros Hm Hk w1 w2 H. unfold bind.
  destruct (Hm w1 w2 H) as [E A'].
  destruct (m w1) as [[a1 | e1] w1'], (m w2) as [[a2 | e2] w2']; cbn in *;
    try discriminate.
  - injection E as ->. apply Hk. exact A'.
  - injection E as ->. split; [reflexivity | exact A'].
Qed.

Lemma resp_try {A} (m : M A) (h : cp_error -> M A) :
  Resp m -> (forall e, Resp (h e)) -> Resp (try_except_cp m h).
Proof.
  intros Hm Hh w1 w2 H. unfold try_except_cp.
  destruct (Hm w1 w2 H) as [E A'].
  destruct (m w1) as [[a1 | [e1 | s1]] w1'], (m w2) as [[a2 | [e2 | s2]] w2'];
    cbn in *; try discriminate; try (split; assumption).
  injection E as ->. apply Hh. exact A'.
Qed.

Lemma resp_emit (e : event) : Resp (emit e).
Proof.
  intros [c1 r1 k1 d1 t1 o1] [c2 r2 k2 d2 t2 o2] (Hc & Hr & Hd & Ht & Ho).
  cbn in *. split; [reflexivity |].
  unfold agree; cbn. rewrite !trajectory_app, Ho. tauto.
Qed.

Lemma resp_print (m : message) : Resp (print m).
Proof. apply resp_emit. Qed.

Lemma resp_randint (a b : Z) : Resp (randint a b).
Proof.
  intros [c1 r1 k1 d1 t1 o1] [c2 r2 k2 d2 t2 o2] (Hc & Hr & Hd & Ht & Ho).
  cbn in *. subst. split; [reflexivity |]. unfold agree; cbn. tauto.
Qed.

Lemma resp_log (lvl : log_level) (r : log_record) : Resp (log lvl r).
Proof.
  intros [c1 r1 k1 d1 t1 o1] [c2 r2 k2 d2 t2 o2] (Hc & Hr & Hd & Ht & Ho).
  cbn in *. split; [reflexivity |].
  unfold agree; cbn. rewrite !trajectory_app, Ho. tauto.
Qed.

Lemma resp_read_config : Resp read_config.
Proof. intros w1 w2 H. split; [cbn; f_equal; apply H | exact H]. Qed.

Lemma resp_read_data : Resp read_data.
Proof. intros w1 w2 H. split; [cbn; f_equal; apply H | exact H]. Qed.

Lemma resp_read_thr : Resp read_thr.
Proof. intros w1 w2 H. split; [cbn; f_equal; apply H | exact H]. Qed.

Lemma resp_write_data (d : telemetry) : Resp (write_data d).
Proof.
  intros [c1 r1 k1 d1 t1 o1] [c2 r2 k2 d2 t2 o2] (Hc & Hr & Hd & Ht & Ho).
  split; [reflexivity |]. unfold agree; cbn in *. tauto.
Qed.

Lemma resp_write_thr (t : thresholds) : Resp (write_thr t).
Proof.
  intros [c1 r1 k1 d1 t1 o1] [c2 r2 k2 d2 t2 o2] (Hc & Hr & Hd & Ht & Ho).
  split; [reflexivity |]. unfold agree; cbn in *. tauto.
Qed.

#[local] Hint Resolve resp_ret resp_raise resp_emit resp_print resp_randint
  resp_log resp_read_config resp_read_data resp_read_thr resp_write_data
  resp_write_thr : resp.

Ltac resp_auto :=
  repeat match goal with
  | |- Resp (bind _ _) => apply resp_bind; [ | intros ?]
  | |- Resp (try_except_cp _ _) => apply resp_try; [ | intros ?]
  | |- Resp (let _ := _ in _) => cbv zeta
  | |- Resp (match ?x with _ => _ end) => destruct x
  | |- Resp _ => solve [eauto with resp]
  end.

Lemma resp_getfloat g section option : Resp (getfloat g section option).
Proof. unfold getfloat. resp_auto. Qed.

Lemma resp_load_thresholds : Resp load_thresholds.
Proof. unfold load_thresholds. resp_auto; apply resp_getfloat. Qed.

Lemma resp_get_real_time_data : Resp get_real_time_data.
Proof. unfold get_real_time_data. resp_auto. Qed.

Lemma resp_print_alerts (alerts : list alert) : Resp (print_alerts alerts).
Proof. induction alerts; cbn; resp_auto. Qed.

Lemma resp_log_alerts (alerts : list alert) : Resp (log_alerts alerts).
Proof. induction alerts; cbn; resp_auto. Qed.

#[local] Hint Resolve resp_print_alerts resp_log_alerts : resp.

Lemma resp_check_alerts : Resp check_alerts.
Proof. unfold check_alerts. resp_auto. Qed.

Lemma resp_cycles (p : program) (target cycle : Z) (k : nat) :
  Resp (cycles p target cycle k).
Proof.
  revert cycle. induction k as [| k IH]; intros cycle; cbn [cycles].
  - apply resp_ret.
  - apply resp_bind; [| intros; apply IH].
    unfold cycle_body, display_dashboard, log_data, sleep_half.
    resp_auto; [apply resp_get_real_time_data | apply resp_check_alerts].
Qed.

Lemma resp_run_monitoring_cycle (p : program) (n : Z) :
  Resp (run_monitoring_cycle p n).
Proof.
  unfold run_monitoring_cycle, setup, initialize_dashboard.
  resp_auto; [apply resp_load_thresholds | apply resp_cycles].
Qed.

(** C8.  Two full runs (from process start) fed the same [config.ini] and
    the same sequence of random draws show the same sequence of states
    after each cycle and end the same way, whatever the clock readings
    (the log time stamps) of each run. *)
Theorem run_monitoring_cycle_deterministic
    (p : program) (n : Z) (cfg : config_file) (rand clock1 clock2 : nat -> Z) :
  fst (run_monitoring_cycle p n (fresh_world cfg rand clock1))
    = fst (run_monitoring_cycle p n (fresh_world cfg rand clock2))
  /\ trajectory (w_out (snd (run_monitoring_cycle p n (fresh_world cfg rand clock1))))
    = trajectory (w_out (snd (run_monitoring_cycle p n (fresh_world cfg rand clock2)))).
Proof.
  destruct (resp_run_monitoring_cycle p n (fresh_world cfg rand clock1)
              (fresh_world cfg rand clock2)) as [E (_ & _ & _ & _ & T)].
  - unfold agree; cbn; repeat split.
  - split; assumption.
Qed.

(** ** The monitoring loop *)

Lemma cycle_headers_app (l1 l2 : list event) :
  cycle_headers (l1 ++ l2) = cycle_headers l1 ++ cycle_headers l2.
Proof.
  induction l1 as [| e l1 IH]; [reflexivity |].
  destruct e as [m | | ]; cbn; rewrite ?IH; [destruct m; cbn; rewrite ?IH | |];
    reflexivity.
Qed.

Lemma adds_trans w1 w2 w3 h1 h2 n1 n2 :
  adds w1 w2 h1 n1 -> adds w2 w3 h2 n2 -> adds w1 w3 (h1 ++ h2) (n1 + n2).
Proof.
  intros (o1 & E1 & H1 & N1) (o2 & E2 & H2 & N2). exists (o1 ++ o2).
  rewrite E2, E1, app_assoc, cycle_headers_app, trajectory_app, length_app.
  subst. auto.
Qed.

Lemma Adds_bind {A B} (m : M A) (k : A -> M B) h1 h2 h n1 n2 n :
  Adds m h1 n1 -> (forall a, Adds (k a) h2 n2) ->
  h = h1 ++ h2 -> n = (n1 + n2)%nat -> Adds (bind m k) h n.
Proof.
  intros Hm Hk -> -> w. destruct (Hm w) as (a & w1 & E1 & A1).
  destruct (Hk a w1) as (b & w2 & E2 & A2).
  exists b, w2. unfold bind. rewrite E1. split; [exact E2 |].
  eapply adds_trans; eassumption.
Qed.

Lemma Adds_emit (e : event) hs n :
  cycle_headers [e] = hs -> length (trajectory [e]) = n -> Adds (emit e) hs n.
Proof. intros H N w. do 2 eexists. split; [reflexivity |]. exists [e]. auto. Qed.

Lemma Adds_silent {A} (m : M A) :
  (forall w, exists a, fst (m w) = Ret a /\ w_out (snd (m w)) = w_out w) ->
  Adds m [] 0.
Proof.
  intros H w. destruct (H w) as (a & E & O). destruct (m w) as [r w'] eqn:Em.
  cbn in *. subst. exists a, w'. split; [reflexivity |].
  exists []. rewrite app_nil_r. auto.
Qed.

Ltac adds_silent := apply Adds_silent; intros [? ? ? ? ? ?]; eexists; split; reflexivity.

Lemma Adds_print_alerts (l : list alert) : Adds (print_alerts l) [] 0.
Proof.
  induction l as [| a l IH]; cbn [print_alerts].
  - adds_silent.
  - eapply Adds_bind; [apply Adds_emit; cbn; reflexivity | intros; exact IH | reflexivity | reflexivity].
Qed.

Lemma Adds_log (lvl : log_level) (r : log_record) : Adds (log lvl r) [] 0.
Proof.
  unfold log. eapply Adds_bind;
    [adds_silent | intros; apply Adds_emit; cbn; reflexivity | reflexivity | reflexivity].
Qed.

Lemma Adds_log_alerts (l : list alert) : Adds (log_alerts l) [] 0.
Proof.
  induction l as [| a l IH]; cbn [log_alerts].
  - adds_silent.
  - eapply Adds_bind; [apply Adds_log | intros; exact IH | reflexivity | reflexivity].
Qed.

Lemma Adds_check_alerts : Adds check_alerts [] 0.
Proof.
  intros w. rewrite check_alerts_eq. do 2 eexists. split; [reflexivity |].
  exists (alert_output (alerts_for (w_data w) (w_thr w))). split; [reflexivity |].
  destruct (alerts_for _ _) as [| a l]; [auto |]. cbn.
  rewrite cycle_headers_app, trajectory_app.
  assert (H : forall l', cycle_headers (map (fun a => Print (MsgAlert a)) l') = []
                        /\ trajectory (map (fun a => Print (MsgAlert a)) l') = []).
  { induction l' as [| b l' IH]; cbn; [auto | exact IH]. }
  destruct (H l) as [-> ->]. auto.
Qed.

Lemma Adds_get_real_time_data : Adds get_real_time_data [] 0.
Proof.
  intros w. rewrite get_real_time_data_eq. do 2 eexists. split; [reflexivity |].
  exists []. rewrite app_nil_r. auto.
Qed.

Ltac abind hs1 k1 hs2 k2 :=
  apply Adds_bind with (h1 := hs1) (n1 := k1) (h2 := hs2) (n2 := k2);
  [ | intros ? | reflexivity | reflexivity].

Lemma Adds_cycle_body (p : program) (cycle target : Z) :
  Adds (cycle_body p cycle target) [cycle] 1.
Proof.
  unfold cycle_body.
  abind [cycle] 0%nat (@nil Z) 1%nat; [apply Adds_emit; reflexivity |].
  abind (@nil Z) 0%nat (@nil Z) 1%nat; [apply Adds_get_real_time_data |].
  abind (@nil Z) 1%nat (@nil Z) 0%nat.
  { unfold display_dashboard. abind (@nil Z) 0%nat (@nil Z) 1%nat;
      [adds_silent | apply Adds_emit; reflexivity]. }
  abind (@nil Z) 0%nat (@nil Z) 0%nat; [apply Adds_check_alerts |].
  abind (@nil Z) 0%nat (@nil Z) 0%nat; [| apply Adds_emit; reflexivity].
  destruct p.
  - adds_silent.
  - unfold log_data. abind (@nil Z) 0%nat (@nil Z) 0%nat; [adds_silent |].
    abind (@nil Z) 0%nat (@nil Z) 0%nat; [apply Adds_log | apply Adds_log_alerts].
Qed.

Lemma Adds_cycles (p : program) (target : Z) (k : nat) : forall cycle,
  Adds (cycles p target cycle k) (map (fun i => cycle + Z.of_nat i) (seq 0 k)) k.
Proof.
  induction k as [| k IH]; intros cycle; cbn [cycles].
  - adds_silent.
  - apply Adds_bind with (h1 := [cycle]) (n1 := 1%nat)
              (h2 := map (fun i => cycle + 1 + Z.of_nat i) (seq 0 k)) (n2 := k);
      [apply Adds_cycle_body | intros; apply IH | | reflexivity].
    cbn. f_equal; [lia |]. rewrite <- seq_shift, map_map.
    apply map_ext. intros. lia.
Qed.

(** Case analysis on what [config.get] returns and on what [float()]
    makes of it. *)
Ltac split_getfloat :=
  repeat (cbv beta iota zeta delta [w_config w_rand w_clock w_data w_thr w_out];
          match goal with
          | |- context [match ?x with _ => _ end] =>
              match type of x with
              | get_result => destruct x
              | option pynum => destruct x
              end
          end).

Lemma load_thresholds_frame (w : world) :
  exists out,
    snd (load_thresholds w) =
      mkWorld (w_config w) (w_rand w) (w_clock w) (w_data w) (w_thr w) (w_out w ++ out)
    /\ cycle_headers out = [] /\ trajectory out = [].
Proof.
  destruct w as [c r k d t o]. cbn [w_config w_rand w_clock w_data w_thr w_out].
  destruct c as [| e | g];
    cbv beta iota zeta delta
      [load_thresholds bind read_config try_except_cp getfloat print emit ret raise];
    split_getfloat; cbn [fst snd w_config w_rand w_clock w_data w_thr w_out];
    first [ exists []; rewrite app_nil_r; split; [reflexivity | split; reflexivity]
          | eexists; split; [rewrite <- !app_assoc; reflexivity | split; reflexivity] ].
Qed.

Lemma load_thresholds_outcome (w1 w2 : world) :
  w_config w1 = w_config w2 -> fst (load_thresholds w1) = fst (load_thresholds w2).
Proof.
  destruct w1 as [c r k d t o], w2 as [c' r' k' d' t' o']. cbn. intros <-.
  destruct c as [| e | g];
    cbv beta iota zeta delta
      [load_thresholds bind read_config try_except_cp getfloat print emit ret raise];
    split_getfloat; reflexivity.
Qed.

(** Whenever the threshold load returns (no config file, or one whose three
    fields [float()] accepts, or one whose error is a [configparser.Error]),
    the state before cycle 1 is [{120, 0, 100.0}] with the loaded
    thresholds, and [run_monitoring_cycle(10)] then runs the cycles
    [1, ..., 10], each showing one simulated state, and completes. *)
Lemma run_ten_cycles_when_loaded (p : program) (w : world) (thr : thresholds) :
  fst (load_thresholds w) = Ret thr ->
  exists w1,
    setup w = (Ret tt, w1)
    /\ w_data w1 = mkTelemetry 120 0 100 /\ w_thr w1 = thr
    /\ fst (run_monitoring_cycle p 10 w) = Ret tt
    /\ adds w1 (snd (run_monitoring_cycle p 10 w)) [1; 2; 3; 4; 5; 6; 7; 8; 9; 10] 10.
Proof.
  intros Hl.
  set (w0 := mkWorld (w_config w) (w_rand w) (w_clock w) (mkTelemetry 0 0 100)
                     (w_thr w) (w_out w ++ [Print MsgInitialized])).
  assert (Hi : initialize_dashboard w = (Ret tt, w0)) by (destruct w; reflexivity).
  assert (Hl0 : fst (load_thresholds w0) = Ret thr)
    by (rewrite <- Hl; apply load_thresholds_outcome; reflexivity).
  destruct (load_thresholds_frame w0) as (out & Hf & _).
  destruct (load_thresholds w0) as [o w0'] eqn:E. cbn in Hl0, Hf. subst o w0'.
  set (w1 := mkWorld (w_config w) (w_rand w) (w_clock w) (mkTelemetry 120 0 100) thr
               (((((w_out w ++ [Print MsgInitialized]) ++ out) ++ [Print MsgStarting])
                  ++ [Print (MsgThresholds thr)]) ++ [Print (MsgOverride 120)])).
  assert (Hs : setup w = (Ret tt, w1)).
  { unfold setup. unfold bind at 1. rewrite Hi. unfold bind at 1. rewrite E.
    reflexivity. }
  exists w1. split; [exact Hs |]. split; [reflexivity |]. split; [reflexivity |].
  destruct (Adds_cycles p 10 10 1 w1) as (a & w2 & E2 & A2).
  assert (Hr : run_monitoring_cycle p 10 w = print MsgComplete w2).
  { unfold run_monitoring_cycle. unfold bind at 1. rewrite Hs.
    unfold bind at 1. change (Z.to_nat 10) with 10%nat. rewrite E2. reflexivity. }
  rewrite Hr. split; [reflexivity |].
  change [1; 2; 3; 4; 5; 6; 7; 8; 9; 10]
    with (map (fun i => 1 + Z.of_nat i) (seq 0 10) ++ []).
  change 10%nat with (10 + 0)%nat at 2.
  eapply adds_trans; [exact A2 |].
  exists [Print MsgComplete]. split; [reflexivity | split; reflexivity].
Qed.

(** C7 (code bug).  With a [config.ini] whose [SPEED_KM_HR] is ["fast"],
    [run_monitoring_cycle(target_cycles=10)] (either source file) raises
    [ValueError] out of [load_thresholds] before the override and before
    any cycle: no cycle banner and no simulated state is shown. *)
Theorem run_monitoring_cycle_non_numeric_config (p : program) :
  let r := run_monitoring_cycle p 10
             (fresh_world config_non_numeric (fun _ => 0) (fun _ => 0)) in
  fst r = Raise (ValueError "fast")
  /\ w_out (snd r) = [Print MsgInitialized]
  /\ cycle_headers (w_out (snd r)) = [] /\ trajectory (w_out (snd r)) = [].
Proof. destruct p; repeat split. Qed.

Example run_ten_cycles_absent_config :
  let r := run_monitoring_cycle VehicleDashboardPy 10
             (fresh_world CfgAbsent (fun i => Z.of_nat i mod 31 - 15) (fun i => Z.of_nat i)) in
  fst r = Ret tt /\ cycle_headers (w_out (snd r)) = [1; 2; 3; 4; 5; 6; 7; 8; 9; 10]
  /\ length (trajectory (w_out (snd r))) = 10%nat.
Proof. vm_compute. repeat split. Qed.

(** The clock does reach the output: two runs with different clocks write
    different log time stamps, while C8 shows their states agree. *)
Example run_clock_changes_log :
  w_out (snd (run_monitoring_cycle VehicleDashboardPy 1
                (fresh_world CfgAbsent (fun _ => 0) (fun _ => 0))))
  <> w_out (snd (run_monitoring_cycle VehicleDashboardPy 1
                   (fresh_world CfgAbsent (fun _ => 0) (fun _ => 1)))).
Proof. vm_compute. discriminate. Qed.

(** * Further properties of the code *)

(** ** The simulation step, further *)

Lemma round_half_even_ge (y : Q) : (y - (1 # 2) <= inject_Z (round_half_even y))%Q.
Proof.
  unfold round_half_even.
  pose proof (Qfloor_le y) as Hf. pose proof (Qlt_floor y) as Hl.
  rewrite inject_Z_plus in Hl.
  set (f := Qfloor y) in *. clearbody f.
  change (inject_Z 1) with 1%Q in Hl.
  destruct (Qle_bool (1 # 2) (y - inject_Z f)) eqn:E1;
    [apply Qle_bool_iff in E1 | apply Qle_bool_false in E1]; cbn [negb].
  - destruct (Qle_bool (y - inject_Z f) (1 # 2)) eqn:E2;
      [apply Qle_bool_iff in E2 | apply Qle_bool_false in E2 ]; cbn [negb].
    + destruct (Z.even f); rewrite ?inject_Z_plus;
        change (inject_Z 1) with 1%Q; lra.
    + rewrite inject_Z_plus. change (inject_Z 1) with 1%Q. lra.
  - lra.
Qed.

Lemma round2_ge (x : Q) : (x - (1 # 200) <= round2 x)%Q.
Proof.
  unfold round2. rewrite Qmake_100.
  pose proof (round_half_even_ge (x * 100)). lra.
Qed.

Lemma drain_factor_le (r : Z) :
  r <= 6500 -> ((1 # 100) + inject_Z r / inject_Z 1500000 <= (1 # 100) + (13 # 3000))%Q.
Proof.
  intros Hr.
  assert (inject_Z r / inject_Z 1500000 <= 13 # 3000)%Q.
  { unfold Qdiv, Qle. cbn. lia. }
  lra.
Qed.

(** X2.  With a speed change drawn in [[-15, 15]] (the [randint] range),
    a non-negative speed moves by at most 15 km/h in one step and stays
    non-negative. *)
Theorem get_real_time_data_speed_change (w : world) :
  0 <= speed_kmh (w_data w) -> -15 <= w_rand w O <= 15 ->
  0 <= speed_kmh (w_data (snd (get_real_time_data w)))
  /\ Z.abs (speed_kmh (w_data (snd (get_real_time_data w))) - speed_kmh (w_data w)) <= 15.
Proof.
  intros Hs Hd. rewrite get_real_time_data_eq. cbn. lia.
Qed.

Lemma get_real_time_data_speed_change_witness :
  (0 <= speed_kmh (w_data world_cycle1) /\ -15 <= w_rand world_cycle1 O <= 15)
  /\ 0 <= speed_kmh (w_data (snd (get_real_time_data world_cycle1)))
  /\ Z.abs (speed_kmh (w_data (snd (get_real_time_data world_cycle1)))
            - speed_kmh (w_data world_cycle1)) <= 15.
Proof.
  assert (H1 : 0 <= speed_kmh (w_data world_cycle1)) by (cbn; lia).
  assert (H2 : -15 <= w_rand world_cycle1 O <= 15) by (cbn; lia).
  split; [split; assumption |].
  exact (get_real_time_data_speed_change world_cycle1 H1 H2).
Defined.

(** X3.  With RPM noise drawn in [[-400, 400]]: at a new speed of at most
    13 km/h the RPM is the idle floor 800, and at 230 km/h or more it is the
    ceiling 6500. *)
Theorem get_real_time_data_rpm_floor_ceiling (w : world) :
  -400 <= w_rand w 1%nat <= 400 ->
  (speed_kmh (w_data (snd (get_real_time_data w))) <= 13 ->
   rpm (w_data (snd (get_real_time_data w))) = 800)
  /\ (230 <= speed_kmh (w_data (snd (get_real_time_data w))) ->
      rpm (w_data (snd (get_real_time_data w))) = 6500).
Proof.
  intros Hn. rewrite get_real_time_data_eq. cbn. lia.
Qed.

Lemma get_real_time_data_rpm_floor_ceiling_witness :
  let w_low := mkWorld CfgAbsent (fun i => match i with O => 5 | _ => 400 end)
                 (fun _ => 0) (mkTelemetry 0 0 100) default_thresholds [] in
  let w_high := mkWorld CfgAbsent (fun i => match i with O => 15 | _ => -400 end)
                  (fun _ => 0) (mkTelemetry 220 0 100) default_thresholds [] in
  (-400 <= w_rand w_low 1%nat <= 400
   /\ speed_kmh (w_data (snd (get_real_time_data w_low))) <= 13
   /\ rpm (w_data (snd (get_real_time_data w_low))) = 800)
  /\ (-400 <= w_rand w_high 1%nat <= 400
      /\ 230 <= speed_kmh (w_data (snd (get_real_time_data w_high)))
      /\ rpm (w_data (snd (get_real_time_data w_high))) = 6500).
Proof.
  intros w_low w_high.
  assert (N1 : -400 <= w_rand w_low 1%nat <= 400) by (cbn; lia).
  assert (S1 : speed_kmh (w_data (snd (get_real_time_data w_low))) <= 13)
    by (vm_compute; discriminate).
  assert (N2 : -400 <= w_rand w_high 1%nat <= 400) by (cbn; lia).
  assert (S2 : 230 <= speed_kmh (w_data (snd (get_real_time_data w_high))))
    by (vm_compute; discriminate).
  split; (split; [assumption | split; [assumption |]]).
  - exact (proj1 (get_real_time_data_rpm_floor_ceiling w_low N1) S1).
  - exact (proj2 (get_real_time_data_rpm_floor_ceiling w_high N2) S2).
Defined.

(** ** One cycle and the whole loop *)

Lemma bind_step {A B} (m : M A) (k : A -> M B) (w : world) (a : A) (w' : world) :
  m w = (Ret a, w') -> bind m k w = k a w'.
Proof. intros H. unfold bind. rewrite H. reflexivity. Qed.

Lemma emit_eq (e : event) (w : world) :
  emit e w = (Ret tt, mkWorld (w_config w) (w_rand w) (w_clock w) (w_data w)
                              (w_thr w) (w_out w ++ [e])).
Proof. reflexivity. Qed.

Lemma display_dashboard_eq (w : world) :
  display_dashboard w =
  (Ret tt, mkWorld (w_config w) (w_rand w) (w_clock w) (w_data w) (w_thr w)
                   (w_out w ++ [Print (MsgDashboard (w_data w))])).
Proof. reflexivity. Qed.

Lemma log_alerts_eq (alerts : list alert) (w : world) :
  log_alerts alerts w =
  (Ret tt, mkWorld (w_config w) (w_rand w) (clock_after (w_clock w) (length alerts))
                   (w_data w) (w_thr w) (w_out w ++ alert_logs (w_clock w) alerts)).
Proof.
  revert w. induction alerts as [| a rest IH]; intros w.
  - destruct w; cbn. rewrite app_nil_r. reflexivity.
  - cbn [log_alerts]. unfold bind at 1. cbn. rewrite IH. cbn.
    rewrite <- app_assoc. reflexivity.
Qed.

Lemma log_data_eq (alerts : list alert) (w : world) :
  log_data alerts w =
  (Ret tt, mkWorld (w_config w) (w_rand w)
                   (clock_after (w_clock w) (cycle_clock_use VehicleDashboardPy alerts))
                   (w_data w) (w_thr w)
                   (w_out w ++ cycle_logs VehicleDashboardPy (w_clock w) (w_data w) alerts)).
Proof.
  unfold log_data. unfold bind at 1. cbn [read_data].
  unfold bind at 1. cbn [log bind now emit].
  rewrite log_alerts_eq. cbn. rewrite <- app_assoc. reflexivity.
Qed.

(** One iteration of the loop: it prints the [CYCLE] banner, takes one
    simulation step (two draws), prints the new state, prints the alerts
    [check_alerts] finds for it (between the alert banners, none if there
    is none), logs the state and then each alert (only in
    [vehicle_dashboard.py], one clock reading per record) and sleeps 0.5 s;
    the thresholds and the configuration are left unchanged. *)
Lemma cycle_body_eq (p : program) (cycle target : Z) (w : world) :
  let d' := next_telemetry (w_data w) (w_rand w O) (w_rand w 1%nat) in
  let al := alerts_for d' (w_thr w) in
  cycle_body p cycle target w =
  (Ret tt,
   mkWorld (w_config w) (fun i => w_rand w (S (S i)))
           (clock_after (w_clock w) (cycle_clock_use p al)) d' (w_thr w)
           (w_out w ++ Print (MsgCycle cycle target) :: Print (MsgDashboard d')
                  :: alert_output al ++ cycle_logs p (w_clock w) d' al ++ [Sleep 500])).
Proof.
  intros d' al. unfold cycle_body, print, sleep_half.
  rewrite (bind_step _ _ _ _ _ (emit_eq _ _)). cbv beta.
  rewrite (bind_step _ _ _ _ _ (get_real_time_data_eq _)). cbv beta.
  rewrite (bind_step _ _ _ _ _ (display_dashboard_eq _)). cbv beta.
  rewrite (bind_step _ _ _ _ _ (check_alerts_eq _)). cbv beta.
  cbn [w_config w_rand w_clock w_data w_thr w_out]. fold d' al.
  destruct p.
  - rewrite (bind_step _ _ _ _ _ (eq_refl : ret tt _ = _)). cbv beta.
    rewrite emit_eq. cbn [w_config w_rand w_clock w_data w_thr w_out
                          cycle_clock_use clock_after cycle_logs].
    rewrite <- !app_assoc. reflexivity.
  - rewrite (bind_step _ _ _ _ _ (log_data_eq _ _)). cbv beta.
    rewrite emit_eq. cbn [w_config w_rand w_clock w_data w_thr w_out].
    rewrite <- !app_assoc. reflexivity.
Qed.

Lemma alerts_shown_app (l1 l2 : list event) :
  alerts_shown (l1 ++ l2) = alerts_shown l1 ++ alerts_shown l2.
Proof.
  induction l1 as [| e l1 IH]; [reflexivity |].
  destruct e as [[] | |]; cbn; rewrite ?IH; reflexivity.
Qed.

Lemma logged_app (l1 l2 : list event) : logged (l1 ++ l2) = logged l1 ++ logged l2.
Proof.
  induction l1 as [| e l1 IH]; [reflexivity |].
  destruct e as [[] | |]; cbn; rewrite ?IH; reflexivity.
Qed.

Lemma strip_logs_app (l1 l2 : list event) :
  strip_logs (l1 ++ l2) = strip_logs l1 ++ strip_logs l2.
Proof.
  induction l1 as [| e l1 IH]; [reflexivity |].
  destruct e as [[] | |]; cbn; rewrite ?IH; reflexivity.
Qed.

Lemma alert_output_views (al : list alert) :
  trajectory (alert_output al) = [] /\ alerts_shown (alert_output al) = al
  /\ logged (alert_output al) = [] /\ strip_logs (alert_output al) = alert_output al.
Proof.
  destruct al as [| a al]; [repeat split |].
  unfold alert_output. cbn [trajectory alerts_shown logged strip_logs app map].
  rewrite trajectory_app, alerts_shown_app, logged_app, strip_logs_app.
  assert (H : forall l, trajectory (map (fun a => Print (MsgAlert a)) l) = []
                 /\ alerts_shown (map (fun a => Print (MsgAlert a)) l) = l
                 /\ logged (map (fun a => Print (MsgAlert a)) l) = []
                 /\ strip_logs (map (fun a => Print (MsgAlert a)) l)
                    = map (fun a => Print (MsgAlert a)) l).
  { induction l as [| b l (H1 & H2 & H3 & H4)]; [repeat split |].
    cbn. rewrite H1, H2, H3, H4. repeat split. }
  destruct (H al) as (H1 & H2 & H3 & H4). rewrite H1, H2, H3, H4.
  cbn. rewrite app_nil_r. repeat split.
Qed.

Lemma alert_logs_views (k : nat -> Z) (al : list alert) :
  trajectory (alert_logs k al) = [] /\ alerts_shown (alert_logs k al) = []
  /\ logged (alert_logs k al) = map (fun a => (WARNING, LogAlert a)) al
  /\ strip_logs (alert_logs k al) = [].
Proof.
  revert k. induction al as [| a al IH]; intros k; [repeat split |].
  cbn. destruct (IH (fun i => k (S i))) as (H1 & H2 & H3 & H4).
  rewrite H1, H2, H3, H4. repeat split.
Qed.

(** The records [log_data] writes for a state and its alerts. *)
Lemma cycle_logs_views (p : program) (k : nat -> Z) (d : telemetry) (al : list alert) :
  trajectory (cycle_logs p k d al) = [] /\ alerts_shown (cycle_logs p k d al) = []
  /\ logged (cycle_logs p k d al)
     = match p with
       | BasicPy => []
       | VehicleDashboardPy => (INFO, LogData d) :: map (fun a => (WARNING, LogAlert a)) al
       end
  /\ strip_logs (cycle_logs p k d al) = [].
Proof.
  destruct p; [repeat split |].
  cbn. destruct (alert_logs_views (fun i => k (S i)) al) as (H1 & H2 & H3 & H4).
  rewrite H1, H2, H3, H4. repeat split.
Qed.

(** What [k] iterations of the loop show, print and log. *)
Lemma cycles_views (p : program) (target : Z) (k : nat) : forall (cycle : Z) (w : world),
  let ds := states_after (w_data w) (w_rand w) k in
  let w' := snd (cycles p target cycle k w) in
  fst (cycles p target cycle k w) = Ret tt
  /\ w_thr w' = w_thr w
  /\ w_config w' = w_config w
  /\ trajectory (w_out w') = trajectory (w_out w) ++ ds
  /\ alerts_shown (w_out w') = alerts_shown (w_out w) ++ flat_map (fun d => alerts_for d (w_thr w)) ds
  /\ logged (w_out w') = logged (w_out w) ++
       match p with
       | BasicPy => []
       | VehicleDashboardPy =>
           flat_map (fun d => (INFO, LogData d)
                       :: map (fun a => (WARNING, LogAlert a)) (alerts_for d (w_thr w))) ds
       end.
Proof.
  induction k as [| k IH]; intros cycle w ds w'.
  - subst ds w'. cbn. destruct p; rewrite !app_nil_r; repeat split.
  - subst ds w'. cbn [cycles states_after].
    rewrite (bind_step _ _ _ _ _ (cycle_body_eq _ _ _ _)). cbv beta.
    set (d' := next_telemetry (w_data w) (w_rand w O) (w_rand w 1%nat)).
    set (al := alerts_for d' (w_thr w)).
    set (w1 := mkWorld _ _ _ _ _ _).
    destruct (IH (cycle + 1) w1) as (R & T & C & Tr & Al & Lg).
    cbn [w_thr w_config w_data w_rand w_out w1] in T, C, Tr, Al, Lg |- *.
    repeat split; try assumption.
    + rewrite Tr, !trajectory_app. cbn [trajectory]. rewrite !trajectory_app.
      destruct (alert_output_views al) as (-> & _).
      destruct (cycle_logs_views p (w_clock w) d' al) as (-> & _).
      rewrite <- !app_assoc. reflexivity.
    + rewrite Al, !alerts_shown_app. cbn [flat_map alerts_shown].
      rewrite !alerts_shown_app.
      destruct (alert_output_views al) as (_ & -> & _).
      destruct (cycle_logs_views p (w_clock w) d' al) as (_ & -> & _).
      cbn. fold al. rewrite !app_nil_r, <- !app_assoc. reflexivity.
    + rewrite Lg, !logged_app. cbn [flat_map logged]. rewrite !logged_app.
      destruct (alert_output_views al) as (_ & _ & -> & _).
      destruct (cycle_logs_views p (w_clock w) d' al) as (_ & _ & -> & _).
      destruct p; cbn; fold al; rewrite ?app_nil_r, <- ?app_assoc; reflexivity.
Qed.

Lemma load_thresholds_views (w : world) :
  exists out,
    snd (load_thresholds w) =
      mkWorld (w_config w) (w_rand w) (w_clock w) (w_data w) (w_thr w) (w_out w ++ out)
    /\ trajectory out = [] /\ alerts_shown out = [] /\ logged out = []
    /\ cycle_headers out = [].
Proof.
  destruct w as [c r k d t o]. cbn [w_config w_rand w_clock w_data w_thr w_out].
  destruct c as [| e | g];
    cbv beta iota zeta delta
      [load_thresholds bind read_config try_except_cp getfloat print emit ret raise];
    split_getfloat; cbn [fst snd w_config w_rand w_clock w_data w_thr w_out];
    first [ exists []; rewrite app_nil_r;
            split; [reflexivity | repeat (split; [reflexivity |]); reflexivity]
          | eexists; split; [rewrite <- !app_assoc; reflexivity |
                             repeat (split; [reflexivity |]); reflexivity] ].
Qed.

(** What a run of [run_monitoring_cycle(n)] shows, for either source
    file: if the threshold load raises, the run raises the same exception
    and shows no state, no alert and writes no record; if it returns [thr],
    the run completes, the states shown are the [n] simulation steps from
    [{120, 0, 100.0}] on the random source as it was at start-up, the
    alerts printed are those [check_alerts] derives from each state and
    [thr], in order, and [vehicle_dashboard.py] logs, per cycle, the state
    (INFO) and then each of its alerts (WARNING), while [basic.py] logs
    nothing.  ([n <= 0] runs no cycle.) *)
Lemma run_views (p : program) (n : Z) (w : world) :
  let r := run_monitoring_cycle p n w in
  match fst (load_thresholds w) with
  | Raise e =>
      fst r = Raise e
      /\ trajectory (w_out (snd r)) = trajectory (w_out w)
      /\ alerts_shown (w_out (snd r)) = alerts_shown (w_out w)
      /\ logged (w_out (snd r)) = logged (w_out w)
  | Ret thr =>
      let ds := states_after (mkTelemetry 120 0 100) (w_rand w) (Z.to_nat n) in
      fst r = Ret tt
      /\ trajectory (w_out (snd r)) = trajectory (w_out w) ++ ds
      /\ alerts_shown (w_out (snd r))
         = alerts_shown (w_out w) ++ flat_map (fun d => alerts_for d thr) ds
      /\ logged (w_out (snd r)) = logged (w_out w) ++
           match p with
           | BasicPy => []
           | VehicleDashboardPy =>
               flat_map (fun d => (INFO, LogData d)
                           :: map (fun a => (WARNING, LogAlert a)) (alerts_for d thr)) ds
           end
  end.
Proof.
  intros r.
  set (w0 := mkWorld (w_config w) (w_rand w) (w_clock w) (mkTelemetry 0 0 100)
                     (w_thr w) (w_out w ++ [Print MsgInitialized])).
  assert (Hi : initialize_dashboard w = (Ret tt, w0)) by (destruct w; reflexivity).
  rewrite (load_thresholds_outcome w w0) by reflexivity.
  destruct (load_thresholds_views w0) as (out & Hf & T0 & A0 & L0 & _).
  destruct (load_thresholds w0) as [o w0'] eqn:E. cbn [snd] in Hf. subst w0'.
  cbn [fst]. destruct o as [thr | e].
  - set (w1 := mkWorld (w_config w) (w_rand w) (w_clock w) (mkTelemetry 120 0 100) thr
                 (((((w_out w ++ [Print MsgInitialized]) ++ out) ++ [Print MsgStarting])
                    ++ [Print (MsgThresholds thr)]) ++ [Print (MsgOverride 120)])).
    assert (Hs : setup w = (Ret tt, w1)).
    { unfold setup. unfold bind at 1. rewrite Hi. unfold bind at 1. rewrite E.
      reflexivity. }
    destruct (cycles_views p n (Z.to_nat n) 1 w1) as (R & Th & _ & Tr & Al & Lg).
    destruct (cycles p n 1 (Z.to_nat n) w1) as [o2 w2] eqn:E2.
    cbn [fst snd] in R, Th, Tr, Al, Lg. subst o2.
    assert (Hr : r = print MsgComplete w2).
    { subst r. unfold run_monitoring_cycle. unfold bind at 1. rewrite Hs.
      unfold bind at 1. rewrite E2. reflexivity. }
    rewrite Hr. cbn [print emit fst snd w_out].
    rewrite trajectory_app, alerts_shown_app, logged_app, Tr, Al, Lg.
    cbn [w1 w_out w_data w_rand w_thr].
    rewrite !trajectory_app, !alerts_shown_app, !logged_app, T0, A0, L0.
    cbn. rewrite !app_nil_r. repeat split.
  - assert (Hs : setup w = (Raise e, mkWorld (w_config w) (w_rand w) (w_clock w)
                              (mkTelemetry 0 0 100) (w_thr w)
                              ((w_out w ++ [Print MsgInitialized]) ++ out))).
    { unfold setup. unfold bind at 1. rewrite Hi. unfold bind at 1. rewrite E.
      reflexivity. }
    assert (Hr : r = (Raise e, mkWorld (w_config w) (w_rand w) (w_clock w)
                              (mkTelemetry 0 0 100) (w_thr w)
                              ((w_out w ++ [Print MsgInitialized]) ++ out))).
    { subst r. unfold run_monitoring_cycle. unfold bind at 1. rewrite Hs. reflexivity. }
    rewrite Hr. cbn [fst snd w_out].
    rewrite !trajectory_app, !alerts_shown_app, !logged_app, T0, A0, L0.
    cbn. rewrite !app_nil_r. repeat split.
Qed.

(** ** Invariants of the shown states *)

Lemma next_telemetry_battery (d : telemetry) (a b : Z) :
  let b' := battery_pct (next_telemetry d a b) in
  (0 <= b')%Q /\ (battery_pct d - (1 # 50) <= b')%Q
  /\ ((b' < battery_pct d)%Q \/ (b' == 0)%Q).
Proof.
  cbn zeta. unfold next_telemetry. cbn [battery_pct].
  set (r := Z.max 800 (Z.min 6500 _)).
  assert (Hr : 800 <= r <= 6500) by (unfold r; lia).
  pose proof (drain_factor_ge r (proj1 Hr)) as Hd1.
  pose proof (drain_factor_le r (proj2 Hr)) as Hd2.
  set (dr := ((1 # 100) + inject_Z r / inject_Z 1500000)%Q) in *.
  set (b0 := battery_pct d) in *. clearbody dr b0.
  unfold py_maxQ. destruct (Qle_bool (b0 - dr) 0) eqn:E.
  - apply Qle_bool_iff in E. rewrite round2_zero.
    split; [lra | split; [lra | right; reflexivity]].
  - apply Qle_bool_false in E.
    pose proof (round2_le (b0 - dr)). pose proof (round2_ge (b0 - dr)).
    pose proof (round2_nonneg (b0 - dr) ltac:(lra)).
    split; [lra | split; [lra | left; lra]].
Qed.

Lemma next_telemetry_speed_rpm (d : telemetry) (a b : Z) :
  0 <= speed_kmh (next_telemetry d a b)
  /\ 800 <= rpm (next_telemetry d a b) <= 6500.
Proof. cbn. lia. Qed.

Lemma inject_Z_succ_nat (i : nat) :
  (inject_Z (Z.of_nat (S i)) == inject_Z (Z.of_nat i) + 1)%Q.
Proof. rewrite Nat2Z.inj_succ, <- Z.add_1_r, inject_Z_plus. reflexivity. Qed.

Lemma states_after_nth (k : nat) : forall d rand i x,
  (0 <= battery_pct d <= 100)%Q ->
  nth_error (states_after d rand k) i = Some x ->
  0 <= speed_kmh x /\ 800 <= rpm x <= 6500
  /\ (0 <= battery_pct x <= battery_pct d)%Q
  /\ (battery_pct d - inject_Z (Z.of_nat (S i)) * (1 # 50) <= battery_pct x)%Q.
Proof.
  induction k as [| k IH]; intros d rand i x Hb Hx; [destruct i; discriminate |].
  cbn [states_after] in Hx. pose proof Hb as [Hb1 Hb2].
  destruct (next_telemetry_battery d (rand O) (rand 1%nat)) as (B0 & B1 & B2).
  destruct i as [| i]; cbn [nth_error] in Hx.
  - injection Hx as <-.
    destruct (next_telemetry_speed_rpm d (rand O) (rand 1%nat)) as (S1 & S2).
    split; [exact S1 | split; [exact S2 |]].
    change (inject_Z (Z.of_nat 1)) with 1%Q.
    split; [split; [exact B0 | destruct B2 as [B2 | B2]; [lra | rewrite B2; lra]] | lra].
  - set (d' := next_telemetry d (rand O) (rand 1%nat)) in *.
    assert (Hb' : (0 <= battery_pct d' <= 100)%Q).
    { split; [exact B0 | destruct B2 as [B2 | B2]; [lra | rewrite B2; lra]]. }
    destruct (IH d' _ i x Hb' Hx) as (S1 & S2 & [B3 B3'] & B4).
    split; [exact S1 | split; [exact S2 |]].
    rewrite (inject_Z_succ_nat (S i)).
    split; [split; [lra | destruct B2 as [B2 | B2]; [lra | rewrite B2 in B3'; lra]] | lra].
Qed.

Lemma states_after_monotone (k : nat) : forall d rand i x y,
  nth_error (states_after d rand k) i = Some x ->
  nth_error (states_after d rand k) (S i) = Some y ->
  (battery_pct y < battery_pct x)%Q \/ (battery_pct y == 0)%Q.
Proof.
  induction k as [| k IH]; intros d rand i x y Hx Hy; [destruct i; discriminate |].
  cbn [states_after] in Hx, Hy.
  destruct i as [| i]; cbn [nth_error] in Hx, Hy.
  - injection Hx as <-. destruct k as [| k]; [discriminate |].
    cbn [states_after nth_error] in Hy. injection Hy as <-.
    apply next_telemetry_battery.
  - exact (IH _ _ i x y Hx Hy).
Qed.

(** ** The bar graphs *)

Lemma Qfloor_le_iff (x : Q) (z : Z) : Qfloor x <= z <-> (x < inject_Z z + 1)%Q.
Proof.
  pose proof (Qfloor_le x) as F1. pose proof (Qlt_floor x) as F2.
  rewrite inject_Z_plus in F2. change (inject_Z 1) with 1%Q in F2.
  split; intros H.
  - rewrite Zle_Qle in H. lra.
  - destruct (Z_le_gt_dec (Qfloor x) z) as [| Hg]; [assumption | exfalso].
    assert (Hz : z + 1 <= Qfloor x) by lia. rewrite Zle_Qle, inject_Z_plus in Hz.
    change (inject_Z 1) with 1%Q in Hz. lra.
Qed.

Lemma Qfloor_ge_iff (x : Q) (z : Z) : z <= Qfloor x <-> (inject_Z z <= x)%Q.
Proof.
  pose proof (Qfloor_le x) as F1. pose proof (Qlt_floor x) as F2.
  rewrite inject_Z_plus in F2. change (inject_Z 1) with 1%Q in F2.
  split; intros H.
  - rewrite Zle_Qle in H. lra.
  - destruct (Z_le_gt_dec z (Qfloor x)) as [| Hg]; [assumption | exfalso].
    assert (Hz : Qfloor x + 1 <= z) by lia. rewrite Zle_Qle, inject_Z_plus in Hz.
    change (inject_Z 1) with 1%Q in Hz. lra.
Qed.

(** [int(b / 10)] lies in [[0, 10]] exactly when [-10 < b < 110]. *)
Lemma battery_level_range (b : Q) :
  0 <= py_int (b / 10) <= 10 <-> (-10 < b < 110)%Q.
Proof.
  unfold py_int. destruct (Qle_bool 0 (b / 10)) eqn:E;
    [apply Qle_bool_iff in E | apply Qle_bool_false in E].
  - rewrite Qfloor_le_iff. change (inject_Z 10) with 10%Q.
    assert (Hb : (0 <= b)%Q).
    { apply (Qmult_le_r _ _ (1 # 10)); [reflexivity |].
      rewrite Qmult_0_l. exact E. }
    assert (Hq : (b / 10 == b * (1 # 10))%Q) by reflexivity.
    rewrite Hq. split.
    + intros [_ H]. lra.
    + intros [_ H]. split; [| lra].
      apply Qfloor_ge_iff. change (inject_Z 0) with 0%Q. lra.
  - assert (Hq : (b / 10 == b * (1 # 10))%Q) by reflexivity.
    rewrite Hq in E.
    assert (Hq' : (- (b / 10) == - b * (1 # 10))%Q) by (rewrite Hq; ring).
    split.
    + intros [H _]. assert (H' : Qfloor (- (b / 10)) <= 0) by lia.
      rewrite Qfloor_le_iff, Hq' in H'. change (inject_Z 0) with 0%Q in H'. lra.
    + intros [H _]. assert (H' : Qfloor (- (b / 10)) <= 0).
      { apply Qfloor_le_iff. rewrite Hq'. change (inject_Z 0) with 0%Q. lra. }
      assert (H'' : 0 <= Qfloor (- (b / 10))).
      { apply Qfloor_ge_iff. rewrite Hq'. change (inject_Z 0) with 0%Q. lra. }
      lia.
Qed.

Lemma battery_bar_length (d : telemetry) :
  length (view_battery_bar (render d))
  = (Z.to_nat (py_int (battery_pct d / 10))
     + Z.to_nat (10 - py_int (battery_pct d / 10)))%nat.
Proof.
  unfold render, str_repeat. cbn [view_battery_bar].
  rewrite length_app, !repeat_length. reflexivity.
Qed.

Lemma rpm_bar_length (d : telemetry) :
  0 <= rpm d -> length (view_rpm_bar (render d)) = Z.to_nat (rpm d / 1000).
Proof.
  intros H. unfold render, str_repeat. cbn [view_rpm_bar].
  rewrite repeat_length. unfold py_int.
  assert (E : Qle_bool 0 (inject_Z (rpm d) / 1000) = true).
  { apply Qle_bool_iff. unfold Qle. cbn. lia. }
  rewrite E. cbn. rewrite Z.mul_1_r. reflexivity.
Qed.

(** ** Runs from start-up *)

Lemma states_after_length (k : nat) : forall d rand, length (states_after d rand k) = k.
Proof. induction k as [| k IH]; intros d rand; [reflexivity | cbn; rewrite IH; reflexivity]. Qed.

(** The states a run started as a fresh process shows: none, or the
    simulation from [{120, 0, 100.0}]. *)
Lemma run_fresh_trajectory (p : program) (n : Z) (cfg : config_file) (rand clock : nat -> Z) :
  trajectory (w_out (snd (run_monitoring_cycle p n (fresh_world cfg rand clock)))) = []
  \/ trajectory (w_out (snd (run_monitoring_cycle p n (fresh_world cfg rand clock))))
     = states_after (mkTelemetry 120 0 100) rand (Z.to_nat n).
Proof.
  pose proof (run_views p n (fresh_world cfg rand clock)) as H.
  destruct (fst (load_thresholds (fresh_world cfg rand clock))) as [thr | e];
    cbn zeta in H; destruct H as (_ & H & _); rewrite H; [right | left]; reflexivity.
Qed.

(** X4.  Every state the dashboard shows in a run (started as a fresh
    process, any configuration, random source and clock) has a
    non-negative speed, an RPM in [[800, 6500]] and a battery level in
    [[0.0, 100.0]], and the [i]-th state shown (from 0) has at least
    [100 - (i + 1) / 50] percent left. *)
Theorem run_shown_states_bounds (p : program) (n : Z) (cfg : config_file)
    (rand clock : nat -> Z) (i : nat) (x : telemetry) :
  nth_error (trajectory (w_out (snd (run_monitoring_cycle p n (fresh_world cfg rand clock))))) i
    = Some x ->
  0 <= speed_kmh x /\ 800 <= rpm x <= 6500 /\ (0 <= battery_pct x <= 100)%Q
  /\ (100 - inject_Z (Z.of_nat (S i)) * (1 # 50) <= battery_pct x)%Q.
Proof.
  intros Hx. destruct (run_fresh_trajectory p n cfg rand clock) as [E | E];
    rewrite E in Hx; [destruct i; discriminate |].
  apply states_after_nth in Hx; [exact Hx | cbn; split; discriminate].
Qed.

Lemma run_shown_states_bounds_witness :
  nth_error (trajectory (w_out (snd (run_monitoring_cycle BasicPy 2
      (fresh_world CfgAbsent (fun _ => 0) (fun _ => 0)))))) 1
    = Some (next_telemetry (next_telemetry (mkTelemetry 120 0 100) 0 0) 0 0)
  /\ 0 <= speed_kmh (next_telemetry (next_telemetry (mkTelemetry 120 0 100) 0 0) 0 0).
Proof.
  assert (H : nth_error (trajectory (w_out (snd (run_monitoring_cycle BasicPy 2
      (fresh_world CfgAbsent (fun _ => 0) (fun _ => 0)))))) 1
    = Some (next_telemetry (next_telemetry (mkTelemetry 120 0 100) 0 0) 0 0))
    by (vm_compute; reflexivity).
  split; [exact H | exact (proj1 (run_shown_states_bounds _ _ _ _ _ _ _ H))].
Defined.

(** X5.  Along a run, each state shown has less battery than the one shown
    before it, unless it is at 0.0. *)
Theorem run_battery_decreasing (p : program) (n : Z) (cfg : config_file)
    (rand clock : nat -> Z) (i : nat) (x y : telemetry) :
  let shown := trajectory (w_out (snd (run_monitoring_cycle p n (fresh_world cfg rand clock)))) in
  nth_error shown i = Some x -> nth_error shown (S i) = Some y ->
  (battery_pct y < battery_pct x)%Q \/ (battery_pct y == 0)%Q.
Proof.
  intros shown Hx Hy. subst shown.
  destruct (run_fresh_trajectory p n cfg rand clock) as [E | E];
    rewrite E in Hx, Hy; [destruct i; discriminate |].
  exact (states_after_monotone _ _ _ _ _ _ Hx Hy).
Qed.

Lemma run_battery_decreasing_witness :
  let shown := trajectory (w_out (snd (run_monitoring_cycle VehicleDashboardPy 2
                  (fresh_world CfgAbsent (fun _ => 0) (fun _ => 0))))) in
  nth_error shown 0 = Some (next_telemetry (mkTelemetry 120 0 100) 0 0)
  /\ nth_error shown 1 = Some (next_telemetry (next_telemetry (mkTelemetry 120 0 100) 0 0) 0 0)
  /\ ((battery_pct (next_telemetry (next_telemetry (mkTelemetry 120 0 100) 0 0) 0 0)
       < battery_pct (next_telemetry (mkTelemetry 120 0 100) 0 0))%Q
      \/ (battery_pct (next_telemetry (next_telemetry (mkTelemetry 120 0 100) 0 0) 0 0) == 0)%Q).
Proof.
  intros shown.
  assert (H0 : nth_error shown 0 = Some (next_telemetry (mkTelemetry 120 0 100) 0 0))
    by (vm_compute; reflexivity).
  assert (H1 : nth_error shown 1
               = Some (next_telemetry (next_telemetry (mkTelemetry 120 0 100) 0 0) 0 0))
    by (vm_compute; reflexivity).
  split; [exact H0 | split; [exact H1 |]].
  exact (run_battery_decreasing VehicleDashboardPy 2 CfgAbsent (fun _ => 0) (fun _ => 0)
           0 _ _ H0 H1).
Defined.

(** X6.  Every dashboard printed in a run draws an RPM bar of
    [int(RPM / 1000)] blocks, at most 6, and a battery bar of exactly 10
    segments. *)
Theorem run_dashboard_bars (p : program) (n : Z) (cfg : config_file)
    (rand clock : nat -> Z) (i : nat) (x : telemetry) :
  nth_error (trajectory (w_out (snd (run_monitoring_cycle p n (fresh_world cfg rand clock))))) i
    = Some x ->
  length (view_rpm_bar (render x)) = Z.to_nat (rpm x / 1000)
  /\ (length (view_rpm_bar (render x)) <= 6)%nat
  /\ length (view_battery_bar (render x)) = 10%nat.
Proof.
  intros Hx. destruct (run_fresh_trajectory p n cfg rand clock) as [E | E];
    rewrite E in Hx; [destruct i; discriminate |].
  apply states_after_nth in Hx; [| cbn; split; discriminate].
  destruct Hx as (_ & Hr & [Hb1 Hb2] & _). cbn [battery_pct] in Hb2.
  rewrite rpm_bar_length by lia.
  assert (Hq : rpm x / 1000 < 7) by (apply Z.div_lt_upper_bound; lia).
  split; [reflexivity | split; [lia |]].
  rewrite battery_bar_length.
  assert (HL : 0 <= py_int (battery_pct x / 10) <= 10)
    by (apply battery_level_range; split; lra).
  lia.
Qed.

Lemma run_dashboard_bars_witness :
  nth_error (trajectory (w_out (snd (run_monitoring_cycle BasicPy 1
      (fresh_world CfgAbsent (fun _ => 0) (fun _ => 0)))))) 0
    = Some (next_telemetry (mkTelemetry 120 0 100) 0 0)
  /\ length (view_battery_bar (render (next_telemetry (mkTelemetry 120 0 100) 0 0))) = 10%nat.
Proof.
  assert (H : nth_error (trajectory (w_out (snd (run_monitoring_cycle BasicPy 1
      (fresh_world CfgAbsent (fun _ => 0) (fun _ => 0)))))) 0
    = Some (next_telemetry (mkTelemetry 120 0 100) 0 0)) by (vm_compute; reflexivity).
  split; [exact H | exact (proj2 (proj2 (run_dashboard_bars _ _ _ _ _ _ _ H)))].
Defined.

(** X7.  The battery bar has exactly 10 segments iff [-10 < battery < 110];
    outside that range [int(battery / 10)] leaves [[0, 10]] and the bar has
    more than 10 segments. *)
Theorem battery_bar_ten_iff (d : telemetry) :
  (length (view_battery_bar (render d)) = 10%nat <-> (-10 < battery_pct d < 110)%Q)
  /\ ((battery_pct d <= -10)%Q \/ (110 <= battery_pct d)%Q ->
      (py_int (battery_pct d / 10) < 0 \/ 10 < py_int (battery_pct d / 10))
      /\ (10 < length (view_battery_bar (render d)))%nat).
Proof.
  rewrite battery_bar_length.
  pose proof (battery_level_range (battery_pct d)) as HL.
  split.
  - rewrite <- HL. lia.
  - intros Hout.
    assert (Hn : ~ (0 <= py_int (battery_pct d / 10) <= 10)).
    { rewrite HL. destruct Hout; lra. }
    split; lia.
Qed.

Lemma battery_bar_ten_iff_witness :
  ((110 <= battery_pct (mkTelemetry 0 800 (115 # 1)))%Q)
  /\ (py_int (battery_pct (mkTelemetry 0 800 (115 # 1)) / 10) < 0
      \/ 10 < py_int (battery_pct (mkTelemetry 0 800 (115 # 1)) / 10))
  /\ (10 < length (view_battery_bar (render (mkTelemetry 0 800 (115 # 1)))))%nat.
Proof.
  assert (H : (110 <= battery_pct (mkTelemetry 0 800 (115 # 1)))%Q)
    by (vm_compute; discriminate).
  split; [exact H |].
  exact (proj2 (battery_bar_ten_iff (mkTelemetry 0 800 (115 # 1))) (or_intror H)).
Defined.

Lemma Qle_bool_inject_Z (a b : Z) : Qle_bool (inject_Z a) (inject_Z b) = (a <=? b).
Proof. unfold Qle_bool. cbn. rewrite !Z.mul_1_r. reflexivity. Qed.

Lemma alerts_for_low_battery (d : telemetry) (thr : thresholds) (t : Q) :
  th_battery_pct thr = PyFin t -> (t <= battery_pct d)%Q ->
  existsb is_low_battery (alerts_for d thr) = false.
Proof.
  intros Ht Hb. unfold alerts_for. rewrite Ht. cbn [py_lt].
  apply Qle_bool_iff in Hb. rewrite Hb. cbn [negb].
  destruct (py_gt (inject_Z (speed_kmh d)) (th_speed_kmh thr));
  destruct (py_gt (inject_Z (rpm d)) (th_rpm thr)); reflexivity.
Qed.

(** X8.  If the thresholds loaded have a finite [BATTERY_LEVEL_PCT] [t]
    and the run is short enough ([t + n / 50 <= 100]), no LowBattery alert
    is printed during the run: the battery starts at 100.0 and loses at most
    0.02 per cycle.  With the defaults ([t = 10]) this covers every run of
    up to 4500 cycles, whatever the random draws. *)
Theorem run_no_low_battery_alert (p : program) (n : Z) (cfg : config_file)
    (rand clock : nat -> Z) (thr : thresholds) (t : Q) :
  fst (load_thresholds (fresh_world cfg rand clock)) = Ret thr ->
  th_battery_pct thr = PyFin t ->
  (t + inject_Z n * (1 # 50) <= 100)%Q ->
  existsb is_low_battery
    (alerts_shown (w_out (snd (run_monitoring_cycle p n (fresh_world cfg rand clock))))) = false.
Proof.
  intros Hl Ht Hn.
  pose proof (run_views p n (fresh_world cfg rand clock)) as H.
  rewrite Hl in H. cbn zeta in H. destruct H as (_ & _ & -> & _).
  cbn [fresh_world w_out w_rand alerts_shown app].
  apply not_true_iff_false. intros H.
  apply existsb_exists in H as (a & Ha & Hlow).
  apply in_flat_map in Ha as (d & Hd & Ha).
  apply In_nth_error in Hd as (i & Hi).
  assert (Hlen : (i < Z.to_nat n)%nat).
  { rewrite <- (states_after_length (Z.to_nat n) (mkTelemetry 120 0 100) rand).
    apply nth_error_Some. rewrite Hi. discriminate. }
  apply states_after_nth in Hi; [| cbn; split; discriminate].
  destruct Hi as (_ & _ & _ & Hb). cbn [battery_pct] in Hb.
  assert (Hin : (inject_Z (Z.of_nat (S i)) <= inject_Z n)%Q)
    by (rewrite <- Zle_Qle; lia).
  assert (Hdb : (t <= battery_pct d)%Q) by lra.
  pose proof (alerts_for_low_battery d thr t Ht Hdb) as Hf.
  assert (Hx : existsb is_low_battery (alerts_for d thr) = true)
    by (apply existsb_exists; exists a; split; assumption).
  congruence.
Qed.

Lemma run_no_low_battery_alert_witness :
  (fst (load_thresholds (fresh_world CfgAbsent (fun _ => 0) (fun _ => 0)))
     = Ret default_thresholds
   /\ th_battery_pct default_thresholds = PyFin 10
   /\ (10 + inject_Z 4500 * (1 # 50) <= 100)%Q)
  /\ existsb is_low_battery
       (alerts_shown (w_out (snd (run_monitoring_cycle VehicleDashboardPy 4500
          (fresh_world CfgAbsent (fun _ => 0) (fun _ => 0)))))) = false.
Proof.
  assert (H1 : fst (load_thresholds (fresh_world CfgAbsent (fun _ => 0) (fun _ => 0)))
                 = Ret default_thresholds) by reflexivity.
  assert (H2 : th_battery_pct default_thresholds = PyFin 10) by reflexivity.
  assert (H3 : (10 + inject_Z 4500 * (1 # 50) <= 100)%Q)
    by (apply Qle_bool_iff; reflexivity).
  split; [split; [exact H1 | split; [exact H2 | exact H3]] |].
  exact (run_no_low_battery_alert VehicleDashboardPy 4500 CfgAbsent (fun _ => 0) (fun _ => 0)
           default_thresholds 10 H1 H2 H3).
Defined.

(** X9.  With the default thresholds, the speed override to 120 does not
    make cycle 1 raise a HighSpeed alert for every draw: the first state
    shown has speed [120 + speed_change], and cycle 1's alerts (the first
    alerts printed) include HighSpeed iff [speed_change > -10]; the draws
    [-15 .. -10] give a cycle 1 without it. *)
Theorem run_cycle1_high_speed (p : program) (n : Z) (cfg : config_file)
    (rand clock : nat -> Z) :
  fst (load_thresholds (fresh_world cfg rand clock)) = Ret default_thresholds ->
  1 <= n -> -15 <= rand O <= 15 ->
  let w' := snd (run_monitoring_cycle p n (fresh_world cfg rand clock)) in
  exists s1 rest more,
    trajectory (w_out w') = s1 :: rest
    /\ speed_kmh s1 = 120 + rand O
    /\ alerts_shown (w_out w') = alerts_for s1 default_thresholds ++ more
    /\ existsb is_high_speed (alerts_for s1 default_thresholds) = (-10 <? rand O).
Proof.
  intros Hl Hn Hr w'.
  pose proof (run_views p n (fresh_world cfg rand clock)) as H.
  rewrite Hl in H. cbn zeta in H. destruct H as (_ & Tr & Al & _).
  fold w' in Tr, Al. cbn [fresh_world w_out w_rand trajectory alerts_shown app] in Tr, Al.
  replace (Z.to_nat n) with (S (Z.to_nat (n - 1))) in Tr, Al by lia.
  cbn [states_after flat_map] in Tr, Al.
  set (s1 := next_telemetry (mkTelemetry 120 0 100) (rand O) (rand 1%nat)) in *.
  eexists s1, _, _. split; [exact Tr | split; [| split; [exact Al |]]].
  - unfold s1, next_telemetry. cbn [speed_kmh]. lia.
  - assert (Hs : speed_kmh s1 = 120 + rand O)
      by (unfold s1, next_telemetry; cbn [speed_kmh]; lia).
    unfold alerts_for. rewrite existsb_app.
    replace (existsb is_high_speed
               ((if py_gt (inject_Z (rpm s1)) (th_rpm default_thresholds)
                 then [AlertHighRpm (rpm s1) (th_rpm default_thresholds)] else [])
                ++ (if py_lt (battery_pct s1) (th_battery_pct default_thresholds)
                    then [AlertLowBattery (battery_pct s1) (th_battery_pct default_thresholds)]
                    else [])))
      with false
      by (destruct (py_gt _ _); destruct (py_lt _ _); reflexivity).
    rewrite orb_false_r. rewrite Hs. cbn [th_speed_kmh default_thresholds py_gt].
    change 110%Q with (inject_Z 110). rewrite Qle_bool_inject_Z.
    destruct (Z.leb_spec (120 + rand O) 110); destruct (Z.ltb_spec (-10) (rand O));
      cbn; reflexivity || lia.
Qed.

Lemma run_cycle1_high_speed_witness :
  (fst (load_thresholds (fresh_world CfgAbsent (fun _ => -12) (fun _ => 0)))
     = Ret default_thresholds
   /\ 1 <= 10 /\ -15 <= (fun _ : nat => -12) O <= 15)
  /\ let w' := snd (run_monitoring_cycle BasicPy 10
                      (fresh_world CfgAbsent (fun _ => -12) (fun _ => 0))) in
     exists s1 rest more,
       trajectory (w_out w') = s1 :: rest
       /\ speed_kmh s1 = 120 + (fun _ : nat => -12) O
       /\ alerts_shown (w_out w') = alerts_for s1 default_thresholds ++ more
       /\ existsb is_high_speed (alerts_for s1 default_thresholds)
          = (-10 <? (fun _ : nat => -12) O).
Proof.
  assert (H1 : fst (load_thresholds (fresh_world CfgAbsent (fun _ => -12) (fun _ => 0)))
                 = Ret default_thresholds) by reflexivity.
  assert (H2 : 1 <= 10) by lia.
  assert (H3 : -15 <= (fun _ : nat => -12) O <= 15) by (cbn; lia).
  split; [split; [exact H1 | split; [exact H2 | exact H3]] |].
  exact (run_cycle1_high_speed BasicPy 10 CfgAbsent (fun _ => -12) (fun _ => 0) H1 H2 H3).
Defined.

Lemma cycles_console (p1 p2 : program) (target : Z) (k : nat) :
  forall cycle c r d t o1 k1 o2 k2,
  strip_logs o1 = strip_logs o2 ->
  let r1 := cycles p1 target cycle k (mkWorld c r k1 d t o1) in
  let r2 := cycles p2 target cycle k (mkWorld c r k2 d t o2) in
  fst r1 = fst r2
  /\ w_config (snd r1) = w_config (snd r2) /\ w_rand (snd r1) = w_rand (snd r2)
  /\ w_data (snd r1) = w_data (snd r2) /\ w_thr (snd r1) = w_thr (snd r2)
  /\ strip_logs (w_out (snd r1)) = strip_logs (w_out (snd r2)).
Proof.
  induction k as [| k IH]; intros cycle c r d t o1 k1 o2 k2 Ho r1 r2.
  - subst r1 r2. cbn. repeat split. exact Ho.
  - subst r1 r2. cbn [cycles].
    rewrite !(bind_step _ _ _ _ _ (cycle_body_eq _ _ _ _)). cbv beta.
    cbn [w_config w_rand w_clock w_data w_thr w_out].
    apply IH.
    rewrite !strip_logs_app. cbn [strip_logs]. rewrite !strip_logs_app.
    destruct (alert_output_views (alerts_for (next_telemetry d (r O) (r 1%nat)) t))
      as (_ & _ & _ & ->).
    destruct (cycle_logs_views p1 k1 (next_telemetry d (r O) (r 1%nat))
                (alerts_for (next_telemetry d (r O) (r 1%nat)) t)) as (_ & _ & _ & ->).
    destruct (cycle_logs_views p2 k2 (next_telemetry d (r O) (r 1%nat))
                (alerts_for (next_telemetry d (r O) (r 1%nat)) t)) as (_ & _ & _ & ->).
    rewrite Ho. reflexivity.
Qed.

(** X10.  [basic.py] and [vehicle_dashboard.py] behave the same up to
    logging: on the same configuration, random source and clock, the two
    [run_monitoring_cycle] end the same way (return, or raise the same
    exception) and print the same sequence of messages and sleeps (the same
    banners, states, thresholds and alerts; the two files format some of
    these lines differently, which the messages abstract); they differ only
    in the log records [vehicle_dashboard.py] writes. *)
Theorem run_console_same (n : Z) (w : world) :
  fst (run_monitoring_cycle BasicPy n w) = fst (run_monitoring_cycle VehicleDashboardPy n w)
  /\ strip_logs (w_out (snd (run_monitoring_cycle BasicPy n w)))
     = strip_logs (w_out (snd (run_monitoring_cycle VehicleDashboardPy n w))).
Proof.
  assert (G : forall p, run_monitoring_cycle p n w =
            match setup w with
            | (Ret _, w1) => (cycles p n 1 (Z.to_nat n) ;; print MsgComplete) w1
            | (Raise e, w1) => (Raise e, w1)
            end) by reflexivity.
  rewrite !G.
  destruct (setup w) as [[[] | e] [c r k d t o]]; [| split; reflexivity].
  destruct (cycles_console BasicPy VehicleDashboardPy n (Z.to_nat n) 1 c r d t o k o k
              eq_refl) as (R & C & Ra & D & T & O).
  unfold bind.
  destruct (cycles BasicPy n 1 (Z.to_nat n) (mkWorld c r k d t o)) as [o1 w1].
  destruct (cycles VehicleDashboardPy n 1 (Z.to_nat n) (mkWorld c r k d t o)) as [o2 w2].
  cbn [fst snd] in R, C, Ra, D, T, O. subst o2.
  destruct o1 as [[] | e]; [| split; [reflexivity | exact O]].
  cbn. rewrite !strip_logs_app, O. split; reflexivity.
Qed.

(** ** Threshold loading, further *)

(** [split_getfloat], keeping the equations of the cases. *)
Ltac split_getfloat_eqn :=
  repeat (cbv beta iota zeta delta [w_config w_rand w_clock w_data w_thr w_out];
          match goal with
          | |- context [match ?x with _ => _ end] =>
              match type of x with
              | get_result => let E := fresh "E" in destruct x eqn:E
              | option pynum => let E := fresh "E" in destruct x eqn:E
              end
          end).



(** X12.  The thresholds [load_thresholds] returns are either the defaults
    [{110, 6000, 10}] or exactly the three values [float()] reads from
    [SPEED_KM_HR], [RPM] and [BATTERY_LEVEL_PCT] of section [THRESHOLDS];
    it never mixes the two. *)
Theorem load_thresholds_result (w : world) (thr : thresholds) :
  fst (load_thresholds w) = Ret thr ->
  thr = default_thresholds
  \/ exists g s1 s2 s3,
       w_config w = CfgParsed g
       /\ g "THRESHOLDS"%string "SPEED_KM_HR"%string = GetValue s1 /\ py_float s1 = Some (th_speed_kmh thr)
       /\ g "THRESHOLDS"%string "RPM"%string = GetValue s2 /\ py_float s2 = Some (th_rpm thr)
       /\ g "THRESHOLDS"%string "BATTERY_LEVEL_PCT"%string = GetValue s3
       /\ py_float s3 = Some (th_battery_pct thr).
Proof.
  destruct w as [c r k d t o]. cbn [w_config].
  destruct c as [| e0 | g];
    cbv beta iota zeta delta
      [load_thresholds bind read_config try_except_cp getfloat print emit ret raise];
    split_getfloat_eqn; cbn [fst]; intros H;
    first [ discriminate
          | injection H as <-; left; reflexivity
          | injection H as <-; right; do 4 eexists; cbn [th_speed_kmh th_rpm th_battery_pct];
            split; [reflexivity |]; repeat (split; [eassumption |]); eassumption ].
Qed.

Lemma load_thresholds_result_witness :
  fst (load_thresholds (fresh_world config_numeric (fun _ => 0) (fun _ => 0)))
    = Ret (mkThresholds (PyFin 90) (PyFin (50005 # 10)) (PyFin 15))
  /\ (mkThresholds (PyFin 90) (PyFin (50005 # 10)) (PyFin 15) = default_thresholds
      \/ exists g s1 s2 s3,
           w_config (fresh_world config_numeric (fun _ => 0) (fun _ => 0)) = CfgParsed g
           /\ g "THRESHOLDS"%string "SPEED_KM_HR"%string = GetValue s1 /\ py_float s1 = Some (PyFin 90)
           /\ g "THRESHOLDS"%string "RPM"%string = GetValue s2 /\ py_float s2 = Some (PyFin (50005 # 10))
           /\ g "THRESHOLDS"%string "BATTERY_LEVEL_PCT"%string = GetValue s3
           /\ py_float s3 = Some (PyFin 15)).
Proof.
  assert (H : fst (load_thresholds (fresh_world config_numeric (fun _ => 0) (fun _ => 0)))
              = Ret (mkThresholds (PyFin 90) (PyFin (50005 # 10)) (PyFin 15)))
    by reflexivity.
  split; [exact H | exact (load_thresholds_result _ _ H)].
Defined.



(** X14.  When reading [config.ini] succeeds but a [config.getfloat] call
    raises a [configparser.Error] (missing section or option) before any
    value is rejected by [float()], [load_thresholds] returns the defaults
    after printing the error and the "Using default" warning, and changes
    nothing else. *)
Theorem load_thresholds_fallback (w : world) (g : string -> string -> get_result)
    (e : cp_error) :
  w_config w = CfgParsed g ->
  (g "THRESHOLDS"%string "SPEED_KM_HR"%string = GetError e
   \/ exists s1 x1, g "THRESHOLDS"%string "SPEED_KM_HR"%string = GetValue s1 /\ py_float s1 = Some x1
      /\ (g "THRESHOLDS"%string "RPM"%string = GetError e
          \/ exists s2 x2, g "THRESHOLDS"%string "RPM"%string = GetValue s2 /\ py_float s2 = Some x2
             /\ g "THRESHOLDS"%string "BATTERY_LEVEL_PCT"%string = GetError e)) ->
  load_thresholds w =
  (Ret default_thresholds,
   mkWorld (w_config w) (w_rand w) (w_clock w) (w_data w) (w_thr w)
           (w_out w ++ [Print (MsgReadError e); Print MsgUsingDefaults])).
Proof.
  destruct w as [c r k d t o]. cbn [w_config w_rand w_clock w_data w_thr w_out].
  intros -> Hg.
  cbv beta iota zeta delta
    [load_thresholds bind read_config try_except_cp getfloat print emit ret raise].
  split_getfloat_eqn; cbn [w_config w_rand w_clock w_data w_thr w_out];
    rewrite <- ?app_assoc; cbn [app];
    destruct Hg as [H1 | (v1 & y1 & H1 & F1 & [H2 | (v2 & y2 & H2 & F2 & H3)])];
    congruence.
Qed.

Lemma load_thresholds_fallback_witness :
  let g := ini_get [("THRESHOLDS", [("speed_km_hr", "90"); ("rpm", "6000")])]%string in
  let e := NoOptionError "battery_level_pct"%string "THRESHOLDS"%string in
  (w_config (fresh_world (CfgParsed g) (fun _ => 0) (fun _ => 0)) = CfgParsed g
   /\ (g "THRESHOLDS"%string "SPEED_KM_HR"%string = GetError e
       \/ exists s1 x1, g "THRESHOLDS"%string "SPEED_KM_HR"%string = GetValue s1
                        /\ py_float s1 = Some x1
          /\ (g "THRESHOLDS"%string "RPM"%string = GetError e
              \/ exists s2 x2, g "THRESHOLDS"%string "RPM"%string = GetValue s2
                               /\ py_float s2 = Some x2
                 /\ g "THRESHOLDS"%string "BATTERY_LEVEL_PCT"%string = GetError e)))
  /\ fst (load_thresholds (fresh_world (CfgParsed g) (fun _ => 0) (fun _ => 0)))
     = Ret default_thresholds.
Proof.
  intros g e.
  assert (H1 : w_config (fresh_world (CfgParsed g) (fun _ => 0) (fun _ => 0)) = CfgParsed g)
    by reflexivity.
  assert (H2 : g "THRESHOLDS"%string "SPEED_KM_HR"%string = GetError e
       \/ exists s1 x1, g "THRESHOLDS"%string "SPEED_KM_HR"%string = GetValue s1
                        /\ py_float s1 = Some x1
          /\ (g "THRESHOLDS"%string "RPM"%string = GetError e
              \/ exists s2 x2, g "THRESHOLDS"%string "RPM"%string = GetValue s2
                               /\ py_float s2 = Some x2
                 /\ g "THRESHOLDS"%string "BATTERY_LEVEL_PCT"%string = GetError e)).
  { right. exists "90"%string, (PyFin 90). split; [reflexivity | split; [reflexivity |]].
    right. exists "6000"%string, (PyFin 6000). repeat split. }
  split; [split; [exact H1 | exact H2] |].
  exact (f_equal fst (load_thresholds_fallback _ g e H1 H2)).
Defined.

(** ** The loop, stated for users *)

(** X16.  What [run_monitoring_cycle(n)] shows, for either source file: if
    the threshold load raises, the run raises the same exception and shows
    no state, prints no alert and writes no record; if it returns [thr], the
    run completes, the states shown are the [n] simulation steps from
    [{120, 0, 100.0}] on the random source as it was at start-up
    ([n <= 0] gives none), the alerts printed are those [check_alerts]
    derives from each state and [thr], in order, and [vehicle_dashboard.py]
    logs, per cycle, the state (INFO) and then each of its alerts (WARNING),
    while [basic.py] logs nothing. *)
Theorem run_monitoring_cycle_views (p : program) (n : Z) (w : world) :
  let r := run_monitoring_cycle p n w in
  match fst (load_thresholds w) with
  | Raise e =>
      fst r = Raise e
      /\ trajectory (w_out (snd r)) = trajectory (w_out w)
      /\ alerts_shown (w_out (snd r)) = alerts_shown (w_out w)
      /\ logged (w_out (snd r)) = logged (w_out w)
  | Ret thr =>
      let ds := states_after (mkTelemetry 120 0 100) (w_rand w) (Z.to_nat n) in
      fst r = Ret tt
      /\ trajectory (w_out (snd r)) = trajectory (w_out w) ++ ds
      /\ alerts_shown (w_out (snd r))
         = alerts_shown (w_out w) ++ flat_map (fun d => alerts_for d thr) ds
      /\ logged (w_out (snd r)) = logged (w_out w) ++
           match p with
           | BasicPy => []
           | VehicleDashboardPy =>
               flat_map (fun d => (INFO, LogData d)
                           :: map (fun a => (WARNING, LogAlert a)) (alerts_for d thr)) ds
           end
  end.
Proof. exact (run_views p n w). Qed.

